(** * Logiq: authorization and progressive rollout

    A shallow embedding of the decision functions of the Logiq bot:

    - [utils/rollout.py]: [StoatRolloutManager], the phase / percentage /
      whitelist / blacklist registry and [can_use_feature];
    - [utils/feature_flags.py]: [StoatFeatureFlags.is_enabled];
    - [adapters/stoat_permissions.py]: [RoleHierarchy];
    - [utils/permissions.py]: [PermissionChecker].

    Python dictionaries are [gmap]s, Python sets are [gset]s, integers are
    [Z].  Code that can raise runs in a small error monad; a [try/except]
    block is [try_except]. *)

From Stdlib Require Import ZArith String Ascii List.
From stdpp Require Import gmap strings list sorting.

Local Open Scope string_scope.
Local Open Scope Z_scope.

(** ** Exceptions

    Only the exceptions the modelled code can meet are listed. *)

Inductive exn : Type :=
  | ValueError (msg : string)
  | AttributeError (msg : string)
  | LookupFailure (msg : string).

(** A computation that either raises or returns. *)
Definition E (A : Type) : Type := exn + A.

Definition ret {A} (a : A) : E A := inr a.
Definition raise {A} (e : exn) : E A := inl e.
Definition bind {A B} (c : E A) (k : A → E B) : E B :=
  match c with
  | inl e => inl e
  | inr a => k a
  end.

Notation "x ←! c ; k" := (bind c (λ x, k))
  (at level 100, c at next level, right associativity,
   format "'[v' x  ←!  c ;  '/' k ']'").

(** [try: body except Exception: handler]. *)
Definition try_except {A} (body : E A) (handler : exn → A) : A :=
  match body with
  | inl e => handler e
  | inr a => a
  end.

(** ** utils/rollout.py *)

Module Rollout.

(** [class RolloutPhase(str, Enum)]. *)
Inductive RolloutPhase : Type :=
  | INTERNAL
  | BETA
  | GRADUAL
  | STABLE
  | DEPRECATED.

#[global] Instance RolloutPhase_eq_dec : EqDecision RolloutPhase.
Proof. solve_decision. Defined.

(** [phase.value]. *)
Definition value (p : RolloutPhase) : string :=
  match p with
  | INTERNAL => "internal"
  | BETA => "beta"
  | GRADUAL => "gradual"
  | STABLE => "stable"
  | DEPRECATED => "deprecated"
  end.

(** [RolloutPhase(phase_str)]: the member with that value, [ValueError]
    when there is none. *)
Definition RolloutPhase_of_value (s : string) : E RolloutPhase :=
  if decide (s = "internal") then ret INTERNAL
  else if decide (s = "beta") then ret BETA
  else if decide (s = "gradual") then ret GRADUAL
  else if decide (s = "stable") then ret STABLE
  else if decide (s = "deprecated") then ret DEPRECATED
  else raise (ValueError s).

(** The four dictionaries of a [StoatRolloutManager]. *)
Record StoatRolloutManager : Type := mkManager {
  _phase_config : gmap string RolloutPhase;
  _rollout_percentages : gmap string Z;
  _whitelist : gmap string (gset string);
  _blacklist : gmap string (gset string)
}.

(** [StoatRolloutManager.__init__]. *)
Definition init : StoatRolloutManager :=
  {| _phase_config :=
       <["core_features" := STABLE]> (
       <["verification" := STABLE]> (
       <["moderation" := STABLE]> (
       <["economy" := GRADUAL]> (
       <["leveling" := GRADUAL]> (
       <["tickets" := BETA]> (
       <["giveaways" := BETA]> (
       <["social_alerts" := INTERNAL]> (
       <["ai_chat" := INTERNAL]> ∅))))))));
     _rollout_percentages :=
       <["economy" := 50]> (
       <["leveling" := 50]> (
       <["tickets" := 25]> (
       <["giveaways" := 25]> (
       <["social_alerts" := 5]> (
       <["ai_chat" := 10]> ∅)))));
     _whitelist := ∅;
     _blacklist := ∅ |}.

Section Decision.

(** Python's built-in [hash] on [str]: one fixed function for the life of
    a process. *)
Variable hash : string → Z.

(** [can_use_feature(feature, server_id)].  The f-string
    [f"{server_id}_{feature}"] is a concatenation; [%] with a positive
    right operand is [Z.modulo]. *)
Definition can_use_feature (self : StoatRolloutManager)
    (feature server_id : string) : bool :=
  let phase := default INTERNAL (_phase_config self !! feature) in
  if decide (phase = STABLE) then true
  else if decide (phase = DEPRECATED) then false
  else if decide (server_id ∈ default ∅ (_blacklist self !! feature)) then false
  else if decide (phase = BETA) then
    bool_decide (server_id ∈ default ∅ (_whitelist self !! feature))
  else if decide (phase = GRADUAL) then
    let percentage := default 0 (_rollout_percentages self !! feature) in
    let rollout_hash := hash (server_id ++ "_" ++ feature) `mod` 100 in
    bool_decide (rollout_hash < percentage)
  else false.

End Decision.

(** [set_phase]. *)
Definition set_phase (self : StoatRolloutManager) (feature : string)
    (phase : RolloutPhase) : StoatRolloutManager :=
  {| _phase_config := <[feature := phase]> (_phase_config self);
     _rollout_percentages := _rollout_percentages self;
     _whitelist := _whitelist self;
     _blacklist := _blacklist self |}.

(** [set_rollout_percentage]: the input is clamped to [0, 100]. *)
Definition set_rollout_percentage (self : StoatRolloutManager)
    (feature : string) (percentage : Z) : StoatRolloutManager :=
  let percentage := Z.max 0 (Z.min 100 percentage) in
  {| _phase_config := _phase_config self;
     _rollout_percentages := <[feature := percentage]> (_rollout_percentages self);
     _whitelist := _whitelist self;
     _blacklist := _blacklist self |}.

(** [d[feature].add(server_id)] after [d.setdefault(feature, set())]. *)
Definition set_add (d : gmap string (gset string)) (feature server_id : string)
    : gmap string (gset string) :=
  <[feature := default ∅ (d !! feature) ∪ {[server_id]}]> d.

(** [if feature in d: d[feature].discard(server_id)]. *)
Definition set_discard (d : gmap string (gset string))
    (feature server_id : string) : gmap string (gset string) :=
  match d !! feature with
  | Some s => <[feature := s ∖ {[server_id]}]> d
  | None => d
  end.

Definition add_whitelist (self : StoatRolloutManager)
    (feature server_id : string) : StoatRolloutManager :=
  {| _phase_config := _phase_config self;
     _rollout_percentages := _rollout_percentages self;
     _whitelist := set_add (_whitelist self) feature server_id;
     _blacklist := _blacklist self |}.

Definition remove_whitelist (self : StoatRolloutManager)
    (feature server_id : string) : StoatRolloutManager :=
  {| _phase_config := _phase_config self;
     _rollout_percentages := _rollout_percentages self;
     _whitelist := set_discard (_whitelist self) feature server_id;
     _blacklist := _blacklist self |}.

Definition add_blacklist (self : StoatRolloutManager)
    (feature server_id : string) : StoatRolloutManager :=
  {| _phase_config := _phase_config self;
     _rollout_percentages := _rollout_percentages self;
     _whitelist := _whitelist self;
     _blacklist := set_add (_blacklist self) feature server_id |}.

Definition remove_blacklist (self : StoatRolloutManager)
    (feature server_id : string) : StoatRolloutManager :=
  {| _phase_config := _phase_config self;
     _rollout_percentages := _rollout_percentages self;
     _whitelist := _whitelist self;
     _blacklist := set_discard (_blacklist self) feature server_id |}.

(** The value [json.loads] returns for a document of the export schema:
    each object as the list of its items, in the order [.items()] yields
    them.  A key that is absent reads as the empty object, as
    [config.get(key, {})] does. *)
Record Config : Type := mkConfig {
  phases : list (string * string);
  percentages : list (string * Z);
  whitelist : list (string * list string);
  blacklist : list (string * list string)
}.

(** Methods mutate [self] and can raise: the registry reached so far
    survives an exception. *)
Definition M (A : Type) : Type :=
  StoatRolloutManager → StoatRolloutManager * E A.

Definition mret {A} (a : A) : M A := λ self, (self, ret a).

Definition mbind {A B} (c : M A) (k : A → M B) : M B :=
  λ self,
    match c self with
    | (self', inl e) => (self', inl e)
    | (self', inr a) => k a self'
    end.

Definition lift {A} (c : E A) : M A := λ self, (self, c).

Definition modify (f : StoatRolloutManager → StoatRolloutManager) : M unit :=
  λ self, (f self, ret tt).

Notation "c1 ;;! c2" := (mbind c1 (λ _, c2))
  (at level 100, c2 at level 200, right associativity).

(** [for x in items: body(x)]. *)
Fixpoint for_each {A} (items : list A) (body : A → M unit) : M unit :=
  match items with
  | [] => mret tt
  | x :: rest => body x ;;! for_each rest body
  end.

(** [d.update(other)]. *)
Definition dict_update {V} (d : gmap string V) (other : list (string * V))
    : gmap string V :=
  foldl (λ acc kv, <[kv.1 := kv.2]> acc) d other.

Definition set_whitelist_entry (feature : string) (servers : list string)
    (self : StoatRolloutManager) : StoatRolloutManager :=
  {| _phase_config := _phase_config self;
     _rollout_percentages := _rollout_percentages self;
     _whitelist := <[feature := list_to_set servers]> (_whitelist self);
     _blacklist := _blacklist self |}.

Definition set_blacklist_entry (feature : string) (servers : list string)
    (self : StoatRolloutManager) : StoatRolloutManager :=
  {| _phase_config := _phase_config self;
     _rollout_percentages := _rollout_percentages self;
     _whitelist := _whitelist self;
     _blacklist := <[feature := list_to_set servers]> (_blacklist self) |}.

Definition update_percentages (other : list (string * Z))
    (self : StoatRolloutManager) : StoatRolloutManager :=
  {| _phase_config := _phase_config self;
     _rollout_percentages := dict_update (_rollout_percentages self) other;
     _whitelist := _whitelist self;
     _blacklist := _blacklist self |}.

(** The first loop of [import_config]:
    [self._phase_config[feature] = RolloutPhase(phase_str)]. *)
Definition import_phase (item : string * string) : M unit :=
  mbind (lift (RolloutPhase_of_value item.2))
        (λ phase, modify (λ self, set_phase self item.1 phase)).

(** The [try] block of [import_config], after [json.loads]. *)
Definition import_config_body (config : Config) : M unit :=
  for_each (phases config) import_phase ;;!
  modify (update_percentages (percentages config)) ;;!
  for_each (whitelist config)
    (λ item, modify (set_whitelist_entry item.1 item.2)) ;;!
  for_each (blacklist config)
    (λ item, modify (set_blacklist_entry item.1 item.2)).

(** [import_config]: the [except] branch only logs, so the method returns
    normally with whatever [self] has become. *)
Definition import_config (self : StoatRolloutManager) (config : Config)
    : StoatRolloutManager :=
  (import_config_body config self).1.

(** The dictionary [get_feature_status] returns; [len] of a set is its
    [size]. *)
Record StatusReport : Type := mkStatusReport {
  report_feature : string;
  report_phase : string;
  report_percentage : Z;
  report_whitelisted : nat;
  report_blacklisted : nat
}.

Definition get_feature_status (self : StoatRolloutManager) (feature : string)
    : StatusReport :=
  let phase := default INTERNAL (_phase_config self !! feature) in
  let percentage := default 0 (_rollout_percentages self !! feature) in
  {| report_feature := feature;
     report_phase := value phase;
     report_percentage :=
       if decide (phase = GRADUAL) then percentage
       else if decide (phase = STABLE) then 100 else 0;
     report_whitelisted := size (default ∅ (_whitelist self !! feature));
     report_blacklisted := size (default ∅ (_blacklist self !! feature)) |}.

(** [get_all_features_status]: one report per key of [_phase_config]. *)
Definition get_all_features_status (self : StoatRolloutManager)
    : gmap string StatusReport :=
  map_imap (λ feature _, Some (get_feature_status self feature))
           (_phase_config self).

(** The dictionary [export_config] hands to [json.dumps]: the four
    entries [import_config] reads, and the time stamp.  The items of a
    dictionary and the elements of a set are listed in the order the map
    and the set give them. *)
Record ExportedConfig : Type := mkExportedConfig {
  exported : Config;
  exported_at : string
}.

(** [export_config]; [now] is [datetime.utcnow().isoformat()]. *)
Definition export_config (now : string) (self : StoatRolloutManager)
    : ExportedConfig :=
  {| exported :=
       {| phases := (λ kv, (kv.1, value kv.2)) <$> map_to_list (_phase_config self);
          percentages := map_to_list (_rollout_percentages self);
          whitelist := (λ kv, (kv.1, elements kv.2)) <$> map_to_list (_whitelist self);
          blacklist := (λ kv, (kv.1, elements kv.2)) <$> map_to_list (_blacklist self) |};
     exported_at := now |}.

(** [phase_order] of [_get_progress_percentage] and [_get_next_phase]. *)
Definition phase_order : list RolloutPhase := [INTERNAL; BETA; GRADUAL; STABLE].

(** [l.index(x)]: [ValueError] when [x] is not in [l]. *)
Fixpoint list_index (x : RolloutPhase) (l : list RolloutPhase) : E nat :=
  match l with
  | [] => raise (ValueError "x not in list")
  | y :: rest =>
    if decide (x = y) then ret 0%nat
    else i ←! list_index x rest; ret (S i)
  end.

(** [_get_progress_percentage].  The quotients [(index + 1) / 4 * 100] are
    the integral floats 25.0, 50.0, 75.0 and 100.0, written here as
    integers. *)
Definition _get_progress_percentage (phase : RolloutPhase) : Z :=
  if decide (phase = DEPRECATED) then 100
  else
    try_except
      (index ←! list_index phase phase_order;
       ret ((Z.of_nat index + 1) * 100 / Z.of_nat (length phase_order)))
      (λ _, 0).

(** [_get_next_phase]. *)
Definition _get_next_phase (current : RolloutPhase) : option RolloutPhase :=
  try_except
    (current_idx ←! list_index current phase_order;
     ret (if decide (current_idx < length phase_order - 1)%nat
          then phase_order !! (current_idx + 1)%nat
          else None))
    (λ _, None).

(** One entry of the dictionary [get_phase_progress] returns. *)
Record PhaseProgress : Type := mkPhaseProgress {
  progress_phase : string;
  progress_percentage : Z;
  progress_next_phase : option string;
  progress_eta : option string
}.

Section Progress.

(** [(datetime.utcnow() + timedelta(days=days)).isoformat()]. *)
Variable eta_in_days : Z → string.

(** [_estimate_eta]. *)
Definition _estimate_eta (feature : string) (phase : RolloutPhase)
    : option string :=
  let days :=
    match phase with
    | INTERNAL => 7
    | BETA => 14
    | GRADUAL => 21
    | _ => 0
    end in
  if decide (0 < days) then Some (eta_in_days days) else None.

(** The dictionary built for one feature in [get_phase_progress]:
    [self._get_next_phase(phase).value] is an attribute access on the
    result, which is [None] for a deprecated phase. *)
Definition phase_progress_entry (feature : string) (phase : RolloutPhase)
    : E PhaseProgress :=
  next_phase ←!
    (if decide (phase ≠ STABLE) then
       match _get_next_phase phase with
       | Some next => ret (Some (value next))
       | None =>
         raise (AttributeError "'NoneType' object has no attribute 'value'")
       end
     else ret None);
  ret {| progress_phase := value phase;
         progress_percentage := _get_progress_percentage phase;
         progress_next_phase := next_phase;
         progress_eta := _estimate_eta feature phase |}.

(** The loop of [get_phase_progress]. *)
Fixpoint phase_progress_loop (items : list (string * RolloutPhase))
    (progress : gmap string PhaseProgress) : E (gmap string PhaseProgress) :=
  match items with
  | [] => ret progress
  | item :: rest =>
    entry ←! phase_progress_entry item.1 item.2;
    phase_progress_loop rest (<[item.1 := entry]> progress)
  end.

(** [get_phase_progress]: there is no [try] around the loop. *)
Definition get_phase_progress (self : StoatRolloutManager)
    : E (gmap string PhaseProgress) :=
  phase_progress_loop (map_to_list (_phase_config self)) ∅.

End Progress.

End Rollout.

(** ** utils/feature_flags.py *)

Module FeatureFlags.

(** [class FeatureStatus(str, Enum)]. *)
Inductive FeatureStatus : Type :=
  | DISABLED
  | INTERNAL
  | BETA
  | GRADUAL
  | ENABLED.

#[global] Instance FeatureStatus_eq_dec : EqDecision FeatureStatus.
Proof. solve_decision. Defined.

(** One entry of [flags]: a dictionary whose keys may be missing. *)
Record Flag : Type := mkFlag {
  status : option FeatureStatus;
  rollout : option Z;
  description : option string
}.

(** Truth value of the dictionary: false exactly when it is empty. *)
Definition truthy (flag : Flag) : bool :=
  bool_decide (is_Some (status flag))
  || bool_decide (is_Some (rollout flag))
  || bool_decide (is_Some (description flag)).

Definition DEFAULT_FLAGS : gmap string Flag :=
  <["verification" := mkFlag (Some ENABLED) (Some 100) (Some "User verification system")]> (
  <["moderation" := mkFlag (Some ENABLED) (Some 100) (Some "Moderation tools")]> (
  <["economy" := mkFlag (Some GRADUAL) (Some 50) (Some "Economy system")]> (
  <["leveling" := mkFlag (Some GRADUAL) (Some 50) (Some "XP leveling system")]> (
  <["tickets" := mkFlag (Some BETA) (Some 25) (Some "Support tickets")]> (
  <["giveaways" := mkFlag (Some BETA) (Some 25) (Some "Giveaway system")]> (
  <["social_alerts" := mkFlag (Some INTERNAL) (Some 5) (Some "Social media alerts (testing)")]> (
  <["ai_chat" := mkFlag (Some INTERNAL) (Some 10) (Some "AI chat integration (testing)")]> ∅))))))).

Section Decision.

Variable hash : string → Z.

(** [is_enabled(feature, server_id)]; [server_id] is [Optional[str]] and
    [if server_id:] is false for [None] and for the empty string. *)
Definition is_enabled (flags : gmap string Flag) (feature : string)
    (server_id : option string) : bool :=
  match flags !! feature with
  | None => false
  | Some flag =>
    if negb (truthy flag) then false
    else
      let status := default DISABLED (status flag) in
      if decide (status = DISABLED) then false
      else if decide (status = ENABLED) then true
      else
        match server_id with
        | Some server_id =>
          if decide (server_id = "") then false
          else
            let rollout := default 0 (rollout flag) in
            let rollout_hash := hash (server_id ++ "_" ++ feature) `mod` 100 in
            bool_decide (rollout_hash < rollout)
        | None => false
        end
  end.

(** The module-level [is_feature_enabled], on the flags of the global
    instance. *)
Definition is_feature_enabled (global_flags : gmap string Flag)
    (feature : string) (server_id : option string) : bool :=
  is_enabled global_flags feature server_id.

End Decision.

(** [get_status]. *)
Definition get_status (flags : gmap string Flag) (feature : string)
    : option string :=
  match flags !! feature with
  | Some flag =>
    if truthy flag then
      Some (match default DISABLED (status flag) with
            | DISABLED => "disabled"
            | INTERNAL => "internal"
            | BETA => "beta"
            | GRADUAL => "gradual"
            | ENABLED => "enabled"
            end)
    else None
  | None => None
  end.

(** [set_status]: only a flag that exists is changed.  (The inner
    dictionaries come from [DEFAULT_FLAGS.copy()], a shallow copy; the
    model follows the flags as one instance sees them.) *)
Definition set_status (flags : gmap string Flag) (feature : string)
    (new_status : FeatureStatus) : gmap string Flag :=
  match flags !! feature with
  | Some flag =>
    <[feature := mkFlag (Some new_status) (rollout flag) (description flag)]> flags
  | None => flags
  end.

(** [set_rollout]: only a flag that exists is changed; the percentage is
    clamped to [0, 100]. *)
Definition set_rollout (flags : gmap string Flag) (feature : string)
    (percentage : Z) : gmap string Flag :=
  match flags !! feature with
  | Some flag =>
    let percentage := Z.max 0 (Z.min 100 percentage) in
    <[feature := mkFlag (status flag) (Some percentage) (description flag)]> flags
  | None => flags
  end.

End FeatureFlags.

(** ** database/db_manager.py: the lookups the checkers consume *)

Module Database.

(** A member document.  Each field holds what [member.get(key, default)]
    returns: a missing key reads as [[]] or [False].  Documents come from
    [find_one] and carry their query keys, so they are never empty (never
    falsy). *)
Record Member : Type := mkMember {
  roles : list string;
  is_admin : bool;
  is_mod : bool;
  permissions : list string
}.

(** A role document; ["position"] may be missing. *)
Record Role : Type := mkRole {
  position : option Z
}.

(** A guild document; ["owner_id"] may be missing. *)
Record Guild : Type := mkGuild {
  owner_id : option string
}.

(** The three lookups.  Each returns the document, [None] when there is
    none, or raises (the store is remote).  The store is read as a
    snapshot: within one call the same lookup gives the same answer. *)
Record DatabaseManager : Type := mkDatabase {
  get_member : string → string → E (option Member);
  get_role : string → string → E (option Role);
  get_guild : string → E (option Guild)
}.

(** [guild.get("owner_id")]: on [None] the attribute access raises. *)
Definition guild_get_owner_id (guild : option Guild) : E (option string) :=
  match guild with
  | None => raise (AttributeError "'NoneType' object has no attribute 'get'")
  | Some g => ret (owner_id g)
  end.

End Database.

(** ** adapters/stoat_permissions.py *)

Module StoatPermissions.

Import Database.

Module RoleHierarchy.

(** [r.get("position", 0)]. *)
Definition position_of (r : Role) : Z := default 0 (position r).

(** [max(roles, key=...)] on a non-empty list: the first maximal element. *)
Fixpoint max_from (best : Role) (rest : list Role) : Role :=
  match rest with
  | [] => best
  | r :: rest' =>
    max_from (if decide (position_of best < position_of r) then r else best) rest'
  end.

(** The loop of [_get_top_role]: ids that do not resolve are skipped. *)
Fixpoint resolve_roles (db : DatabaseManager) (guild_id : string)
    (role_ids : list string) : E (list Role) :=
  match role_ids with
  | [] => ret []
  | role_id :: rest =>
    role ←! get_role db guild_id role_id;
    roles ←! resolve_roles db guild_id rest;
    ret (match role with
         | Some r => r :: roles
         | None => roles
         end)
  end.

Definition _get_top_role (db : DatabaseManager) (guild_id : string)
    (role_ids : list string) : E Role :=
  roles ←! resolve_roles db guild_id role_ids;
  ret (match roles with
       | [] => mkRole (Some (-1))
       | r :: rest => max_from r rest
       end).

Definition _check_permission (db : DatabaseManager)
    (guild_id user_id permission : string) : E bool :=
  member ←! get_member db guild_id user_id;
  ret (match member with
       | None => false
       | Some m => is_admin m || bool_decide (permission ∈ permissions m)
       end).

(** The [try] block of [can_manage_role]. *)
Definition can_manage_role_body (db : DatabaseManager)
    (executor_id target_role_id guild_id : string) : E bool :=
  executor ←! get_member db guild_id executor_id;
  target_role ←! get_role db guild_id target_role_id;
  match executor, target_role with
  | Some executor, Some target_role =>
    guild ←! get_guild db guild_id;
    owner ←! guild_get_owner_id guild;
    if decide (Some executor_id = owner) then ret true
    else if is_admin executor then
      executor_top_role ←! _get_top_role db guild_id (roles executor);
      ret (bool_decide (position_of target_role < position_of executor_top_role))
    else ret false
  | _, _ => ret false
  end.

Definition can_manage_role (db : DatabaseManager)
    (executor_id target_role_id guild_id : string) : bool :=
  try_except (can_manage_role_body db executor_id target_role_id guild_id)
             (λ _, false).

(** The [try] block of [can_moderate_member]. *)
Definition can_moderate_member_body (db : DatabaseManager)
    (moderator_id target_id guild_id : string) : E (bool * option string) :=
  if decide (moderator_id = target_id) then
    ret (false, Some "Cannot moderate yourself")
  else
    moderator ←! get_member db guild_id moderator_id;
    target ←! get_member db guild_id target_id;
    guild ←! get_guild db guild_id;
    match moderator, target with
    | Some moderator, Some target =>
      owner ←! guild_get_owner_id guild;
      if decide (Some moderator_id = owner) then ret (true, None)
      else if decide (Some target_id = owner) then
        ret (false, Some "Cannot moderate server owner")
      else
        has_kick ←! _check_permission db guild_id moderator_id "kick_members";
        has_ban ←! _check_permission db guild_id moderator_id "ban_members";
        if negb (has_kick || has_ban) then
          ret (false, Some "You don't have permission to moderate")
        else
          mod_top ←! _get_top_role db guild_id (roles moderator);
          target_top ←! _get_top_role db guild_id (roles target);
          if decide (position_of mod_top ≤ position_of target_top) then
            ret (false, Some "Target has equal or higher role")
          else ret (true, None)
    | _, _ => ret (false, Some "Member not found")
    end.

Definition can_moderate_member (db : DatabaseManager)
    (moderator_id target_id guild_id : string) : bool * option string :=
  try_except (can_moderate_member_body db moderator_id target_id guild_id)
             (λ _, (false, Some "Permission check failed")).

End RoleHierarchy.

(** [class StoatPermissions]: the attributes, name and value, in the order
    of the class body. *)
Definition StoatPermissions_attributes : list (string * string) :=
  [("ADMINISTRATOR", "administrator");
   ("MANAGE_SERVER", "manage_server");
   ("MANAGE_ROLES", "manage_roles");
   ("MANAGE_CHANNELS", "manage_channels");
   ("KICK_MEMBERS", "kick_members");
   ("BAN_MEMBERS", "ban_members");
   ("CREATE_INVITES", "create_invites");
   ("MANAGE_GUILD", "manage_guild");
   ("AUDIT_LOG", "audit_log");
   ("VIEW_CHANNEL", "view_channel");
   ("SEND_MESSAGES", "send_messages");
   ("MANAGE_MESSAGES", "manage_messages");
   ("EMBED_LINKS", "embed_links");
   ("ATTACH_FILES", "attach_files");
   ("READ_MESSAGE_HISTORY", "read_message_history");
   ("MENTION_EVERYONE", "mention_everyone");
   ("USE_EXTERNAL_EMOJIS", "use_external_emojis")].

(** [[perm for perm in dir(StoatPermissions) if not perm.startswith('_')]]:
    [dir] lists the attribute names in sorted order, and the names the
    class inherits from [object] all start with an underscore. *)
Definition public_names : list string :=
  ["ADMINISTRATOR"; "ATTACH_FILES"; "AUDIT_LOG"; "BAN_MEMBERS";
   "CREATE_INVITES"; "EMBED_LINKS"; "KICK_MEMBERS"; "MANAGE_CHANNELS";
   "MANAGE_GUILD"; "MANAGE_MESSAGES"; "MANAGE_ROLES"; "MANAGE_SERVER";
   "MENTION_EVERYONE"; "READ_MESSAGE_HISTORY"; "SEND_MESSAGES";
   "USE_EXTERNAL_EMOJIS"; "VIEW_CHANNEL"].

Module PermissionChecker.

Definition check_permission (db : DatabaseManager)
    (guild_id user_id permission : string) : bool :=
  try_except
    (member ←! get_member db guild_id user_id;
     ret (match member with
          | None => false
          | Some m =>
            if is_admin m then true
            else bool_decide (permission ∈ permissions m)
          end))
    (λ _, false).

Fixpoint check_any_permission (db : DatabaseManager)
    (guild_id user_id : string) (perms : list string) : bool :=
  match perms with
  | [] => false
  | perm :: rest =>
    if check_permission db guild_id user_id perm then true
    else check_any_permission db guild_id user_id rest
  end.

Fixpoint check_all_permissions (db : DatabaseManager)
    (guild_id user_id : string) (perms : list string) : bool :=
  match perms with
  | [] => true
  | perm :: rest =>
    if negb (check_permission db guild_id user_id perm) then false
    else check_all_permissions db guild_id user_id rest
  end.

Definition get_user_permissions (db : DatabaseManager)
    (guild_id user_id : string) : list string :=
  try_except
    (member ←! get_member db guild_id user_id;
     ret (match member with
          | None => []
          | Some m => if is_admin m then public_names else permissions m
          end))
    (λ _, []).

End PermissionChecker.

End StoatPermissions.

(** ** utils/permissions.py *)

Module Permissions.

Import Database.

Module PermissionChecker.

(** The [try] block of [can_moderate]. *)
Definition can_moderate_body (db : DatabaseManager)
    (guild_id moderator_id target_id : string) : E (bool * option string) :=
  if decide (moderator_id = target_id) then
    ret (false, Some "You cannot moderate yourself")
  else
    mod_member ←! get_member db guild_id moderator_id;
    match mod_member with
    | None => ret (false, Some "You have no permissions")
    | Some mod_member =>
      let is_mod_or_admin := is_mod mod_member || is_admin mod_member in
      if negb is_mod_or_admin then
        ret (false, Some "You are not a moderator or admin")
      else
        guild ←! get_guild db guild_id;
        match guild with
        | Some g =>
          if decide (owner_id g = Some target_id) then
            ret (false, Some "You cannot moderate the server owner")
          else ret (true, None)
        | None => ret (true, None)
        end
    end.

Definition can_moderate (db : DatabaseManager)
    (guild_id moderator_id target_id : string) : bool * option string :=
  try_except (can_moderate_body db guild_id moderator_id target_id)
             (λ _, (false, Some "Permission check failed")).

(** The [try] block of [get_permission_level]. *)
Definition get_permission_level_body (db : DatabaseManager)
    (guild_id user_id : string) : E Z :=
  guild ←! get_guild db guild_id;
  let is_owner :=
    match guild with
    | Some g => bool_decide (owner_id g = Some user_id)
    | None => false
    end in
  if is_owner then ret 3
  else
    member ←! get_member db guild_id user_id;
    match member with
    | None => ret 0
    | Some m =>
      if is_admin m then ret 2
      else if is_mod m then ret 1
      else ret 0
    end.

Definition get_permission_level (db : DatabaseManager)
    (guild_id user_id : string) : Z :=
  try_except (get_permission_level_body db guild_id user_id) (λ _, 0).

Definition check_hierarchy (db : DatabaseManager)
    (guild_id executor_id target_id : string) : bool :=
  try_except
    (let executor_level := get_permission_level db guild_id executor_id in
     let target_level := get_permission_level db guild_id target_id in
     ret (bool_decide (target_level < executor_level)))
    (λ _, false).

(** [permissions_map] of [has_permission]. *)
Definition permissions_map : gmap string Z :=
  <["ban_members" := 2]> (
  <["kick_members" := 2]> (
  <["manage_members" := 2]> (
  <["manage_roles" := 2]> (
  <["manage_channels" := 2]> (
  <["manage_messages" := 2]> (
  <["mute_members" := 1]> (
  <["deafen_members" := 1]> (
  <["send_messages" := 0]> (
  <["read_messages" := 0]> ∅))))))))).

Section HasPermission.

(** [str.lower]. *)
Variable lower : string → string.

Definition has_permission (db : DatabaseManager)
    (guild_id user_id permission : string) : bool :=
  try_except
    (let permission := lower permission in
     let required_level := default 0 (permissions_map !! permission) in
     let user_level := get_permission_level db guild_id user_id in
     ret (bool_decide (required_level ≤ user_level)))
    (λ _, false).

End HasPermission.

End PermissionChecker.

(** The module-level checks of [utils/permissions.py]. *)

Definition is_admin (db : DatabaseManager) (guild_id user_id : string) : bool :=
  try_except
    (member ←! get_member db guild_id user_id;
     ret (match member with
          | None => false
          | Some m => Database.is_admin m
          end))
    (λ _, false).

Definition is_mod (db : DatabaseManager) (guild_id user_id : string) : bool :=
  try_except
    (member ←! get_member db guild_id user_id;
     ret (match member with
          | None => false
          | Some m => Database.is_mod m || Database.is_admin m
          end))
    (λ _, false).

Definition has_role (db : DatabaseManager)
    (guild_id user_id role_id : string) : bool :=
  try_except
    (member ←! get_member db guild_id user_id;
     ret (match member with
          | None => false
          | Some m => bool_decide (role_id ∈ roles m)
          end))
    (λ _, false).

Definition is_guild_owner (db : DatabaseManager)
    (guild_id user_id : string) : bool :=
  try_except
    (guild ←! get_guild db guild_id;
     ret (match guild with
          | None => false
          | Some g => bool_decide (owner_id g = Some user_id)
          end))
    (λ _, false).

End Permissions.

(** ** Concrete inputs *)

(** A polynomial string hash: it stands for the [hash] of one process
    where a statement is evaluated on concrete data. *)
Fixpoint poly_hash_from (acc : Z) (s : string) : Z :=
  match s with
  | EmptyString => acc
  | String c rest => poly_hash_from (acc * 31 + Z.of_nat (nat_of_ascii c)) rest
  end.

Definition poly_hash (s : string) : Z := poly_hash_from 7 s.

(** [str.lower] on ASCII text: [A-Z] become [a-z], every other byte is
    kept. *)
Definition ascii_lower (c : ascii) : ascii :=
  let n := nat_of_ascii c in
  if (65 <=? n)%nat && (n <=? 90)%nat then ascii_of_nat (n + 32) else c.

Fixpoint str_lower (s : string) : string :=
  match s with
  | EmptyString => EmptyString
  | String c rest => String (ascii_lower c) (str_lower rest)
  end.

(** A string is a phase value when some member of [RolloutPhase] has it. *)
Definition valid_phase_string (s : string) : Prop :=
  ∃ p, Rollout.value p = s.

(** The phase entries the first loop of [import_config] gets through: the
    ones before the first entry that is not a phase value. *)
Fixpoint applied_phases (items : list (string * string))
    : list (string * Rollout.RolloutPhase) :=
  match items with
  | [] => []
  | item :: rest =>
    match Rollout.RolloutPhase_of_value item.2 with
    | inr phase => (item.1, phase) :: applied_phases rest
    | inl _ => []
    end
  end.

(** Five valid phase entries followed by one that is not a phase. *)
Definition config_one_invalid : Rollout.Config :=
  {| Rollout.phases :=
       [("economy", "stable"); ("leveling", "stable"); ("tickets", "gradual");
        ("giveaways", "gradual"); ("ai_chat", "beta");
        ("social_alerts", "canary")];
     Rollout.percentages := [("tickets", 10)];
     Rollout.whitelist := [("ai_chat", ["server_1"])];
     Rollout.blacklist := [("economy", ["server_2"])] |}.

(** [has_kick or has_ban] as [can_moderate_member] computes it for a
    moderator whose member document is [m]. *)
Definition has_moderation_permission (m : Database.Member) : bool :=
  (Database.is_admin m
   || bool_decide ("kick_members" ∈ Database.permissions m))
  || (Database.is_admin m
      || bool_decide ("ban_members" ∈ Database.permissions m)).

(** A store held in memory: three collections, lookups that never fail. *)
Definition store (members : gmap (string * string) Database.Member)
    (roles : gmap (string * string) Database.Role)
    (guilds : gmap string Database.Guild) : Database.DatabaseManager :=
  {| Database.get_member := λ guild_id user_id, ret (members !! (guild_id, user_id));
     Database.get_role := λ guild_id role_id, ret (roles !! (guild_id, role_id));
     Database.get_guild := λ guild_id, ret (guilds !! guild_id) |}.

Definition plain_member : Database.Member :=
  Database.mkMember [] false false [].

(** Guild "g1" is owned by "owner_1", who has no member document;
    "member_1" and "member_2" are members with no roles and no
    permissions. *)
Definition db_owner_without_record : Database.DatabaseManager :=
  store (<[("g1", "member_1") := plain_member]> (
         <[("g1", "member_2") := plain_member]> ∅))
        ∅
        (<["g1" := Database.mkGuild (Some "owner_1")]> ∅).

(** Guild "g1": the owner and two members all have documents. *)
Definition db_small_guild : Database.DatabaseManager :=
  store (<[("g1", "owner_1") := plain_member]> (
         <[("g1", "member_1") := plain_member]> (
         <[("g1", "member_2") :=
             Database.mkMember [] false false ["kick_members"]]> ∅)))
        ∅
        (<["g1" := Database.mkGuild (Some "owner_1")]> ∅).

(** Guild "g1": "mod_1" may kick and holds "role_mod" (position 5);
    "admin_1" is an admin holding "role_gone" and "role_mod"; "member_2"
    holds only "role_gone", an id with no role document; "role_low" has
    position 3. *)
Definition db_dangling_role : Database.DatabaseManager :=
  store (<[("g1", "mod_1") :=
             Database.mkMember ["role_mod"] false false ["kick_members"]]> (
         <[("g1", "admin_1") :=
             Database.mkMember ["role_gone"; "role_mod"] true false []]> (
         <[("g1", "member_2") :=
             Database.mkMember ["role_gone"] false false []]> ∅)))
        (<[("g1", "role_mod") := Database.mkRole (Some 5)]> (
         <[("g1", "role_low") := Database.mkRole (Some 3)]> ∅))
        (<["g1" := Database.mkGuild (Some "owner_1")]> ∅).

(** ** Management operations as data

    The calls the rollout script makes on a manager. *)

Inductive Operation : Type :=
  | SetPhase (feature : string) (phase : Rollout.RolloutPhase)
  | SetRolloutPercentage (feature : string) (percentage : Z)
  | AddWhitelist (feature server_id : string)
  | RemoveWhitelist (feature server_id : string)
  | AddBlacklist (feature server_id : string)
  | RemoveBlacklist (feature server_id : string).

Definition operation_feature (op : Operation) : string :=
  match op with
  | SetPhase feature _ | SetRolloutPercentage feature _
  | AddWhitelist feature _ | RemoveWhitelist feature _
  | AddBlacklist feature _ | RemoveBlacklist feature _ => feature
  end.

Definition apply_operation (self : Rollout.StoatRolloutManager)
    (op : Operation) : Rollout.StoatRolloutManager :=
  match op with
  | SetPhase feature phase => Rollout.set_phase self feature phase
  | SetRolloutPercentage feature percentage =>
    Rollout.set_rollout_percentage self feature percentage
  | AddWhitelist feature server_id => Rollout.add_whitelist self feature server_id
  | RemoveWhitelist feature server_id =>
    Rollout.remove_whitelist self feature server_id
  | AddBlacklist feature server_id => Rollout.add_blacklist self feature server_id
  | RemoveBlacklist feature server_id =>
    Rollout.remove_blacklist self feature server_id
  end.

(** A sequence of operations, applied from the left. *)
Definition apply_operations (self : Rollout.StoatRolloutManager)
    (ops : list Operation) : Rollout.StoatRolloutManager :=
  foldl apply_operation self ops.

(** Every stored percentage lies in [0, 100]. *)
Definition percentages_in_range (self : Rollout.StoatRolloutManager) : Prop :=
  map_Forall (λ _ p, 0 ≤ p ≤ 100) (Rollout._rollout_percentages self).

(** A manager with nothing in it. *)
Definition empty_manager : Rollout.StoatRolloutManager :=
  Rollout.mkManager ∅ ∅ ∅ ∅.

(** What the loop of [get_phase_progress] stores for a feature, when the
    entry can be built. *)
Definition stored_entry (eta_in_days : Z → string) (feature : string)
    (phase : Rollout.RolloutPhase) : option Rollout.PhaseProgress :=
  match Rollout.phase_progress_entry eta_in_days feature phase with
  | inr entry => Some entry
  | inl _ => None
  end.

(** A configuration all of whose phase strings are valid; it sets a
    percentage above 100 and repeats a key. *)
Definition config_all_valid : Rollout.Config :=
  {| Rollout.phases :=
       [("economy", "stable"); ("tickets", "gradual"); ("economy", "beta")];
     Rollout.percentages := [("tickets", 150)];
     Rollout.whitelist := [("economy", ["server_1"; "server_1"])];
     Rollout.blacklist := [] |}.

(** * Properties of the rollout manager *)

Section RolloutFacts.

Import Rollout.

Variable hash : string → Z.

(** A stable feature is enabled before anything else is looked at. *)
Lemma can_use_feature_stable self feature server_id :
  _phase_config self !! feature = Some STABLE →
  can_use_feature hash self feature server_id = true.
Proof.
  intros Hphase. unfold can_use_feature. rewrite Hphase. reflexivity.
Qed.

(** A deprecated feature is disabled. *)
Lemma can_use_feature_deprecated self feature server_id :
  _phase_config self !! feature = Some DEPRECATED →
  can_use_feature hash self feature server_id = false.
Proof.
  intros Hphase. unfold can_use_feature. rewrite Hphase. reflexivity.
Qed.

(** Outside the stable phase the blacklist denies. *)
Lemma can_use_feature_blacklisted self feature server_id :
  _phase_config self !! feature ≠ Some STABLE →
  server_id ∈ default ∅ (_blacklist self !! feature) →
  can_use_feature hash self feature server_id = false.
Proof.
  intros Hphase Hin. unfold can_use_feature.
  destruct (_phase_config self !! feature) as [[]|]; simpl; try done;
    by rewrite decide_True.
Qed.

(** In the gradual phase the decision is the bucket test. *)
Lemma can_use_feature_gradual self feature server_id :
  _phase_config self !! feature = Some GRADUAL →
  server_id ∉ default ∅ (_blacklist self !! feature) →
  can_use_feature hash self feature server_id =
    bool_decide (hash (server_id ++ "_" ++ feature) `mod` 100
                 < default 0 (_rollout_percentages self !! feature)).
Proof.
  intros Hphase Hnot. unfold can_use_feature. rewrite Hphase. simpl.
  by rewrite decide_False.
Qed.

(** In the beta phase the decision is whitelist membership. *)
Lemma can_use_feature_beta self feature server_id :
  _phase_config self !! feature = Some BETA →
  server_id ∉ default ∅ (_blacklist self !! feature) →
  can_use_feature hash self feature server_id =
    bool_decide (server_id ∈ default ∅ (_whitelist self !! feature)).
Proof.
  intros Hphase Hnot. unfold can_use_feature. rewrite Hphase. simpl.
  by rewrite decide_False.
Qed.

(** The bucket value lies in [0, 100). *)
Lemma bucket_range (s : string) : 0 ≤ hash s `mod` 100 < 100.
Proof. apply Z.mod_pos_bound. lia. Qed.

Lemma add_blacklist_elem self feature server_id :
  server_id ∈ default ∅ (_blacklist (add_blacklist self feature server_id) !! feature).
Proof.
  unfold add_blacklist, set_add. simpl. rewrite lookup_insert_eq. simpl.
  set_solver.
Qed.

(** Two registries that give a feature the gradual phase and the same
    blacklist: the one with the larger percentage enables every server the
    other enables. *)
Lemma gradual_threshold_monotone self1 self2 feature server_id :
  _phase_config self1 !! feature = Some GRADUAL →
  _phase_config self2 !! feature = Some GRADUAL →
  _blacklist self1 !! feature = _blacklist self2 !! feature →
  default 0 (_rollout_percentages self1 !! feature)
    ≤ default 0 (_rollout_percentages self2 !! feature) →
  can_use_feature hash self1 feature server_id = true →
  can_use_feature hash self2 feature server_id = true.
Proof.
  intros Hphase1 Hphase2 Hblack Hle.
  destruct (decide (server_id ∈ default ∅ (_blacklist self1 !! feature)))
    as [Hin|Hnot].
  - rewrite can_use_feature_blacklisted; [done| |done]. by rewrite Hphase1.
  - rewrite !can_use_feature_gradual by (by rewrite <-?Hblack).
    rewrite !bool_decide_eq_true. lia.
Qed.

(** C1 (evaluation at the failing input).  The server "server_42" is put
    on the blacklist of the stable feature "moderation" of a fresh manager:
    it is on the blacklist, and [can_use_feature] still answers [True],
    because the test for the stable phase returns before the blacklist is
    read. *)
Theorem blacklisted_server_uses_stable_feature :
  "server_42" ∈ default ∅
     (_blacklist (add_blacklist init "moderation" "server_42") !! "moderation")
  ∧ _phase_config (add_blacklist init "moderation" "server_42") !! "moderation"
    = Some STABLE
  ∧ can_use_feature hash (add_blacklist init "moderation" "server_42")
      "moderation" "server_42" = true.
Proof.
  split; [apply add_blacklist_elem|].
  assert (Hphase : _phase_config (add_blacklist init "moderation" "server_42")
                     !! "moderation" = Some STABLE) by (vm_compute; reflexivity).
  split; [exact Hphase|]. by apply can_use_feature_stable.
Qed.

(** C3.  Monotonicity of the gradual bucket test: for a feature in the
    gradual phase and a fixed server, with the rest of the registry
    unchanged, if the server may use the feature once the percentage has
    been set to [p1], it may use it once the percentage has been set to any
    [p2 > p1].  The same value [hash(...) % 100] is compared with both
    thresholds. *)
Theorem gradual_rollout_monotone self feature server_id (p1 p2 : Z) :
  _phase_config self !! feature = Some GRADUAL →
  p1 < p2 →
  can_use_feature hash (set_rollout_percentage self feature p1)
    feature server_id = true →
  can_use_feature hash (set_rollout_percentage self feature p2)
    feature server_id = true.
Proof.
  intros Hphase Hlt.
  apply gradual_threshold_monotone; try done.
  simpl. rewrite !lookup_insert_eq. simpl. lia.
Qed.

(** C8.  Boundary percentages of the gradual phase: for a feature in the
    gradual phase and a server that is not on its blacklist, the decision
    is false when the rollout percentage is 0 and true when it is 100,
    whatever the server: the bucket is a hash modulo 100, in [0, 100). *)
Theorem gradual_boundary_percentages self feature server_id :
  _phase_config self !! feature = Some GRADUAL →
  server_id ∉ default ∅ (_blacklist self !! feature) →
  (default 0 (_rollout_percentages self !! feature) = 0 →
   can_use_feature hash self feature server_id = false)
  ∧ (default 0 (_rollout_percentages self !! feature) = 100 →
     can_use_feature hash self feature server_id = true).
Proof.
  intros Hphase Hnot.
  pose proof (bucket_range (server_id ++ "_" ++ feature)) as Hrange.
  rewrite can_use_feature_gradual by done.
  split; intros ->.
  - apply bool_decide_eq_false. lia.
  - apply bool_decide_eq_true. lia.
Qed.

(** C10.  A feature name with no entry in the registry is disabled for
    every server: [can_use_feature] reads its phase as internal, and
    [StoatFeatureFlags.is_enabled] answers [False] for a flag it does not
    know. *)
Theorem unknown_feature_disabled self flags feature server_id opt_server_id :
  _phase_config self !! feature = None →
  flags !! feature = None →
  can_use_feature hash self feature server_id = false
  ∧ FeatureFlags.is_enabled hash flags feature opt_server_id = false
  ∧ FeatureFlags.is_feature_enabled hash flags feature opt_server_id = false.
Proof.
  intros Hphase Hflag. split.
  - unfold can_use_feature. rewrite Hphase. simpl.
    by destruct (decide (server_id ∈ default ∅ (_blacklist self !! feature))).
  - unfold FeatureFlags.is_feature_enabled, FeatureFlags.is_enabled.
    by rewrite Hflag.
Qed.

End RolloutFacts.

Lemma gradual_rollout_monotone_witness :
  Rollout._phase_config Rollout.init !! "economy" = Some Rollout.GRADUAL
  ∧ 40 < 90
  ∧ Rollout.can_use_feature poly_hash
      (Rollout.set_rollout_percentage Rollout.init "economy" 40)
      "economy" "server_1" = true
  ∧ Rollout.can_use_feature poly_hash
      (Rollout.set_rollout_percentage Rollout.init "economy" 90)
      "economy" "server_1" = true.
Proof.
  assert (H1 : Rollout._phase_config Rollout.init !! "economy"
               = Some Rollout.GRADUAL) by (vm_compute; reflexivity).
  assert (H2 : 40 < 90) by lia.
  assert (H3 : Rollout.can_use_feature poly_hash
                 (Rollout.set_rollout_percentage Rollout.init "economy" 40)
                 "economy" "server_1" = true) by (vm_compute; reflexivity).
  split; [exact H1|]. split; [exact H2|]. split; [exact H3|].
  exact (gradual_rollout_monotone poly_hash Rollout.init "economy" "server_1"
           40 90 H1 H2 H3).
Defined.

Lemma gradual_boundary_percentages_witness :
  Rollout.can_use_feature poly_hash
    (Rollout.set_rollout_percentage Rollout.init "economy" 0)
    "economy" "server_1" = false
  ∧ Rollout.can_use_feature poly_hash
      (Rollout.set_rollout_percentage Rollout.init "economy" 100)
      "economy" "server_1" = true.
Proof.
  split.
  - refine (proj1 (gradual_boundary_percentages poly_hash
                     (Rollout.set_rollout_percentage Rollout.init "economy" 0)
                     "economy" "server_1" _ _) _).
    + vm_compute; reflexivity.
    + simpl. rewrite lookup_empty. simpl. apply not_elem_of_empty.
    + vm_compute; reflexivity.
  - refine (proj2 (gradual_boundary_percentages poly_hash
                     (Rollout.set_rollout_percentage Rollout.init "economy" 100)
                     "economy" "server_1" _ _) _).
    + vm_compute; reflexivity.
    + simpl. rewrite lookup_empty. simpl. apply not_elem_of_empty.
    + vm_compute; reflexivity.
Defined.

Lemma unknown_feature_disabled_witness :
  Rollout._phase_config Rollout.init !! "karaoke" = None
  ∧ FeatureFlags.DEFAULT_FLAGS !! "karaoke" = None
  ∧ Rollout.can_use_feature poly_hash Rollout.init "karaoke" "server_1" = false
  ∧ FeatureFlags.is_enabled poly_hash FeatureFlags.DEFAULT_FLAGS "karaoke"
      (Some "server_1") = false
  ∧ FeatureFlags.is_feature_enabled poly_hash FeatureFlags.DEFAULT_FLAGS
      "karaoke" (Some "server_1") = false.
Proof.
  assert (H1 : Rollout._phase_config Rollout.init !! "karaoke" = None)
    by (vm_compute; reflexivity).
  assert (H2 : FeatureFlags.DEFAULT_FLAGS !! "karaoke" = None)
    by (vm_compute; reflexivity).
  split; [exact H1|]. split; [exact H2|].
  exact (unknown_feature_disabled poly_hash Rollout.init
           FeatureFlags.DEFAULT_FLAGS "karaoke" "server_1" (Some "server_1")
           H1 H2).
Defined.

(** * Properties of [import_config] *)

Section ImportFacts.

Import Rollout.

(** [RolloutPhase(s)] succeeds exactly on the values of the enum. *)
Lemma RolloutPhase_of_value_inr s p :
  RolloutPhase_of_value s = inr p ↔ value p = s.
Proof.
  unfold RolloutPhase_of_value. split.
  - repeat case_decide; subst; intros [= <-]; reflexivity.
  - intros <-. by destruct p.
Qed.

Lemma RolloutPhase_of_value_invalid s :
  ¬ valid_phase_string s → ∃ e, RolloutPhase_of_value s = inl e.
Proof.
  intros Hinv. destruct (RolloutPhase_of_value s) as [e|p] eqn:Hs; [eauto|].
  exfalso. apply Hinv. exists p. by apply RolloutPhase_of_value_inr.
Qed.

Lemma RolloutPhase_of_value_valid s :
  valid_phase_string s → ∃ p, RolloutPhase_of_value s = inr p.
Proof. intros [p Hp]. exists p. by apply RolloutPhase_of_value_inr. Qed.

(** The first loop on a list with an invalid entry: it raises, and the
    phases of the entries before that one have been stored. *)
Lemma import_phases_raises items :
  Exists (λ item, ¬ valid_phase_string item.2) items →
  ∀ self, ∃ e,
    for_each items import_phase self =
      ({| _phase_config := dict_update (_phase_config self) (applied_phases items);
          _rollout_percentages := _rollout_percentages self;
          _whitelist := _whitelist self;
          _blacklist := _blacklist self |}, inl e).
Proof.
  induction items as [|item rest IH]; intros Hex self.
  - by apply Exists_nil in Hex.
  - simpl. unfold mbind at 1. unfold import_phase at 1, mbind, lift, modify.
    destruct (RolloutPhase_of_value item.2) as [e|phase] eqn:Hitem.
    + exists e. by destruct self.
    + apply Exists_cons in Hex as [Hbad|Hrest].
      * destruct (RolloutPhase_of_value_invalid _ Hbad) as [e He]. congruence.
      * destruct (IH Hrest (set_phase self item.1 phase)) as [e He].
        exists e. rewrite He. reflexivity.
Qed.

(** The first loop on a list of valid entries: every phase is stored. *)
Lemma import_phases_returns items :
  Forall (λ item, valid_phase_string item.2) items →
  ∀ self,
    for_each items import_phase self =
      ({| _phase_config := dict_update (_phase_config self) (applied_phases items);
          _rollout_percentages := _rollout_percentages self;
          _whitelist := _whitelist self;
          _blacklist := _blacklist self |}, inr tt).
Proof.
  induction 1 as [|item rest Hitem _ IH]; intros self.
  - by destruct self.
  - simpl. unfold mbind at 1. unfold import_phase at 1, mbind, lift, modify.
    destruct (RolloutPhase_of_value_valid _ Hitem) as [phase ->].
    rewrite IH. reflexivity.
Qed.

(** C2 (as amended).  [import_config] is not all-or-nothing.  When the
    configuration holds a phase string that is not a value of
    [RolloutPhase], the import stops at the first such entry: the phase
    entries before it have been stored in the registry, and the
    percentages, the whitelists and the blacklists are what they were
    before the call.  The exception is caught inside the method. *)
Theorem import_config_stops_at_invalid_phase self config :
  Exists (λ item, ¬ valid_phase_string item.2) (phases config) →
  import_config self config =
    {| _phase_config :=
         dict_update (_phase_config self) (applied_phases (phases config));
       _rollout_percentages := _rollout_percentages self;
       _whitelist := _whitelist self;
       _blacklist := _blacklist self |}.
Proof.
  intros Hex. unfold import_config, import_config_body.
  destruct (import_phases_raises _ Hex self) as [e He].
  unfold mbind at 1. rewrite He. reflexivity.
Qed.

End ImportFacts.

Lemma canary_not_a_phase : ¬ valid_phase_string "canary".
Proof. intros [[] H]; discriminate H. Qed.

Lemma config_one_invalid_has_invalid :
  Exists (λ item, ¬ valid_phase_string item.2)
         (Rollout.phases config_one_invalid).
Proof.
  unfold config_one_invalid. simpl.
  do 5 apply Exists_cons_tl. apply Exists_cons_hd. exact canary_not_a_phase.
Qed.

(** C2 (counterexample).  Five valid phase entries and one invalid one are
    imported into a fresh manager: the registry is not what it was, the
    five valid phases have been stored (["economy"] has gone from gradual
    to stable). *)
Lemma import_config_not_atomic :
  Exists (λ item, ¬ valid_phase_string item.2)
         (Rollout.phases config_one_invalid)
  ∧ Rollout._phase_config Rollout.init !! "economy" = Some Rollout.GRADUAL
  ∧ Rollout._phase_config (Rollout.import_config Rollout.init config_one_invalid)
      !! "economy" = Some Rollout.STABLE
  ∧ Rollout.import_config Rollout.init config_one_invalid ≠ Rollout.init.
Proof.
  split; [exact config_one_invalid_has_invalid|].
  split; [vm_compute; reflexivity|].
  split; [vm_compute; reflexivity|].
  intros Heq.
  apply (f_equal (λ m, Rollout._phase_config m !! "economy")) in Heq.
  vm_compute in Heq. discriminate Heq.
Qed.

Lemma import_config_stops_at_invalid_phase_witness :
  Exists (λ item, ¬ valid_phase_string item.2)
         (Rollout.phases config_one_invalid)
  ∧ Rollout.import_config Rollout.init config_one_invalid =
      {| Rollout._phase_config :=
           Rollout.dict_update (Rollout._phase_config Rollout.init)
             (applied_phases (Rollout.phases config_one_invalid));
         Rollout._rollout_percentages := Rollout._rollout_percentages Rollout.init;
         Rollout._whitelist := Rollout._whitelist Rollout.init;
         Rollout._blacklist := Rollout._blacklist Rollout.init |}.
Proof.
  split; [exact config_one_invalid_has_invalid|].
  exact (import_config_stops_at_invalid_phase Rollout.init config_one_invalid
           config_one_invalid_has_invalid).
Defined.

(** * Properties of the role hierarchy *)

(** Membership of a literal in a literal list. *)
Ltac in_list :=
  repeat first [apply list_elem_of_here | apply list_elem_of_further].

Section HierarchyFacts.

Import Database StoatPermissions.RoleHierarchy.

Variable db : DatabaseManager.

(** Whatever happens in the [try] block, a raised exception becomes the
    denial "Permission check failed". *)
Lemma can_moderate_member_raise moderator_id target_id guild_id e :
  can_moderate_member_body db moderator_id target_id guild_id = inl e →
  can_moderate_member db moderator_id target_id guild_id
    = (false, Some "Permission check failed").
Proof. intros H. unfold can_moderate_member. by rewrite H. Qed.

Lemma can_manage_role_raise executor_id target_role_id guild_id e :
  can_manage_role_body db executor_id target_role_id guild_id = inl e →
  can_manage_role db executor_id target_role_id guild_id = false.
Proof. intros H. unfold can_manage_role. by rewrite H. Qed.

Lemma check_permission_found guild_id user_id m permission :
  get_member db guild_id user_id = inr (Some m) →
  _check_permission db guild_id user_id permission
    = inr (is_admin m || bool_decide (permission ∈ permissions m)).
Proof. intros H. unfold _check_permission. by rewrite H. Qed.

(** C9 (as amended).  Self-moderation is always denied, before any
    lookup and so also for the owner: [RoleHierarchy.can_moderate_member]
    returns [(False, "Cannot moderate yourself")] and
    [PermissionChecker.can_moderate] returns
    [(False, "You cannot moderate yourself")]. *)
Theorem self_moderation_denied guild_id user_id :
  can_moderate_member db user_id user_id guild_id
    = (false, Some "Cannot moderate yourself")
  ∧ Permissions.PermissionChecker.can_moderate db guild_id user_id user_id
    = (false, Some "You cannot moderate yourself").
Proof.
  split.
  - unfold can_moderate_member, can_moderate_member_body.
    by rewrite decide_True.
  - unfold Permissions.PermissionChecker.can_moderate,
      Permissions.PermissionChecker.can_moderate_body.
    by rewrite decide_True.
Qed.


(** C5 (as amended).  A member, target role or guild that is not found
    is a denial, and nothing is raised.  [can_moderate_member] answers
    [(False, reason)] when the moderator's document, the target's document
    or the guild is not found; [can_manage_role] answers [False] when the
    executor's document, the target role or the guild is not found.  (A
    role id in a member's role list that does not resolve is skipped
    instead; it does not by itself deny.) *)
Theorem not_found_is_denied guild_id moderator_id target_id executor_id
    target_role_id :
  (get_member db guild_id moderator_id = inr None
   ∨ get_member db guild_id target_id = inr None
   ∨ get_guild db guild_id = inr None →
   ∃ reason,
     can_moderate_member db moderator_id target_id guild_id
       = (false, Some reason)
     ∧ reason ∈ ["Cannot moderate yourself"; "Member not found";
                 "Permission check failed"])
  ∧ (get_member db guild_id executor_id = inr None
     ∨ get_role db guild_id target_role_id = inr None
     ∨ get_guild db guild_id = inr None →
     can_manage_role db executor_id target_role_id guild_id = false).
Proof.
  split.
  - intros Hnf. unfold can_moderate_member, can_moderate_member_body.
    case_decide as Hself.
    { eexists. split; [reflexivity|in_list]. }
    destruct (get_member db guild_id moderator_id) as [e1|[mo|]] eqn:Hmo;
      simpl; try (eexists; split; [reflexivity|in_list]);
    destruct (get_member db guild_id target_id) as [e2|[mt|]] eqn:Hmt;
      simpl; try (eexists; split; [reflexivity|in_list]);
    destruct (get_guild db guild_id) as [e3|[g|]] eqn:Hg;
      simpl; try (eexists; split; [reflexivity|in_list]).
    all: destruct Hnf as [Hnf|[Hnf|Hnf]]; congruence.
  - intros Hnf. unfold can_manage_role, can_manage_role_body.
    destruct (get_member db guild_id executor_id) as [e1|[ex|]] eqn:Hex;
      simpl; try reflexivity;
    destruct (get_role db guild_id target_role_id) as [e2|[tr|]] eqn:Htr;
      simpl; try reflexivity;
    destruct (get_guild db guild_id) as [e3|[g|]] eqn:Hg;
      simpl; try reflexivity.
    destruct Hnf as [Hnf|[Hnf|Hnf]]; congruence.
Qed.

(** A member with no roles has the implicit top role of position -1. *)
Lemma top_role_of_no_roles guild_id :
  _get_top_role db guild_id [] = inr (mkRole (Some (-1)))
  ∧ position_of (mkRole (Some (-1))) = -1.
Proof. split; reflexivity. Qed.

(** A moderator who is not the owner is allowed only with a top role
    strictly above the target's. *)
Lemma allow_needs_higher_role guild_id a b g ma mb ra rb :
  get_guild db guild_id = inr (Some g) →
  owner_id g ≠ Some a →
  get_member db guild_id a = inr (Some ma) →
  get_member db guild_id b = inr (Some mb) →
  _get_top_role db guild_id (roles ma) = inr ra →
  _get_top_role db guild_id (roles mb) = inr rb →
  can_moderate_member db a b guild_id = (true, None) →
  position_of rb < position_of ra.
Proof.
  intros Hg Hoa Hma Hmb Hra Hrb.
  unfold can_moderate_member, can_moderate_member_body.
  case_decide as Hself; [done|].
  rewrite Hma, Hmb, Hg. simpl.
  rewrite decide_False by congruence.
  case_decide; [done|].
  rewrite !(check_permission_found _ _ ma) by done. simpl.
  destruct (negb _); [done|].
  rewrite Hra, Hrb. simpl.
  case_decide; [done|]. intros _. lia.
Qed.

(** C6 (as amended).  Ties favour the target.  Two distinct members of a
    guild, neither of them its owner, whose top roles have the same
    position (a member none of whose roles resolves has the implicit
    position -1) cannot moderate each other.  The reason is
    "Target has equal or higher role" for a moderator who is an admin or
    has [kick_members] or [ban_members]; the permission test comes first,
    so for any other moderator the reason is
    "You don't have permission to moderate". *)
Theorem equal_top_roles_deny_both_ways guild_id a b g ma mb ra rb :
  a ≠ b →
  get_guild db guild_id = inr (Some g) →
  owner_id g ≠ Some a →
  owner_id g ≠ Some b →
  get_member db guild_id a = inr (Some ma) →
  get_member db guild_id b = inr (Some mb) →
  _get_top_role db guild_id (roles ma) = inr ra →
  _get_top_role db guild_id (roles mb) = inr rb →
  position_of ra = position_of rb →
  can_moderate_member db a b guild_id =
    (false, Some (if has_moderation_permission ma
                  then "Target has equal or higher role"
                  else "You don't have permission to moderate"))
  ∧ can_moderate_member db b a guild_id =
    (false, Some (if has_moderation_permission mb
                  then "Target has equal or higher role"
                  else "You don't have permission to moderate")).
Proof.
  intros Hne Hg Hoa Hob Hma Hmb Hra Hrb Heq.
  split; unfold can_moderate_member, can_moderate_member_body.
  - rewrite decide_False by done.
    rewrite Hma, Hmb, Hg. simpl.
    rewrite !decide_False by congruence.
    rewrite !(check_permission_found _ _ ma) by done. simpl.
    unfold has_moderation_permission.
    destruct (_ || _ || _); simpl; [|done].
    rewrite Hra, Hrb. simpl. rewrite decide_True by lia. done.
  - rewrite decide_False by done.
    rewrite Hma, Hmb, Hg. simpl.
    rewrite !decide_False by congruence.
    rewrite !(check_permission_found _ _ mb) by done. simpl.
    unfold has_moderation_permission.
    destruct (_ || _ || _); simpl; [|done].
    rewrite Hra, Hrb. simpl. rewrite decide_True by lia. done.
Qed.

End HierarchyFacts.

(** C9 (counterexample).  The reason returned for self-moderation is not
    the string "cannot act on self", in either checker. *)
Lemma self_moderation_reason_differs :
  StoatPermissions.RoleHierarchy.can_moderate_member db_small_guild
    "member_1" "member_1" "g1" ≠ (false, Some "cannot act on self")
  ∧ Permissions.PermissionChecker.can_moderate db_small_guild
      "g1" "member_1" "member_1" ≠ (false, Some "cannot act on self").
Proof.
  split; intros H; vm_compute in H; discriminate H.
Qed.



(** C5 (counterexample).  "role_gone" is in the role list of "member_2"
    and of "admin_1" and its lookup finds nothing; "mod_1" is still
    allowed to moderate "member_2", and "admin_1" is still allowed to
    manage "role_low". *)
Lemma dangling_role_not_denied :
  Database.get_role db_dangling_role "g1" "role_gone" = inr None
  ∧ Database.get_member db_dangling_role "g1" "member_2"
    = inr (Some (Database.mkMember ["role_gone"] false false []))
  ∧ Database.get_member db_dangling_role "g1" "admin_1"
    = inr (Some (Database.mkMember ["role_gone"; "role_mod"] true false []))
  ∧ StoatPermissions.RoleHierarchy.can_moderate_member db_dangling_role
      "mod_1" "member_2" "g1" = (true, None)
  ∧ StoatPermissions.RoleHierarchy.can_manage_role db_dangling_role
      "admin_1" "role_low" "g1" = true.
Proof. repeat split; vm_compute; reflexivity. Qed.

Lemma not_found_is_denied_witness :
  Database.get_member db_owner_without_record "g1" "owner_1" = inr None
  ∧ (∃ reason,
       StoatPermissions.RoleHierarchy.can_moderate_member
         db_owner_without_record "owner_1" "member_1" "g1"
         = (false, Some reason)
       ∧ reason ∈ ["Cannot moderate yourself"; "Member not found";
                   "Permission check failed"])
  ∧ StoatPermissions.RoleHierarchy.can_manage_role db_owner_without_record
      "owner_1" "role_mod" "g1" = false.
Proof.
  assert (Hnf : Database.get_member db_owner_without_record "g1" "owner_1"
                = inr None) by (vm_compute; reflexivity).
  destruct (not_found_is_denied db_owner_without_record "g1" "owner_1"
              "member_1" "owner_1" "role_mod") as [Hmod Hrole].
  split; [exact Hnf|]. split.
  - apply Hmod. left. exact Hnf.
  - apply Hrole. left. exact Hnf.
Defined.

(** C6 (counterexample).  "member_1" and "member_2" have no roles, so
    both top roles have position -1, and neither owns the guild;
    "member_1" has no moderation permission and is denied for that reason,
    not for the tie. *)
Lemma tie_denied_for_missing_permission :
  StoatPermissions.RoleHierarchy._get_top_role db_small_guild "g1" []
    = inr (Database.mkRole (Some (-1)))
  ∧ Database.get_member db_small_guild "g1" "member_1" = inr (Some plain_member)
  ∧ Database.get_member db_small_guild "g1" "member_2"
    = inr (Some (Database.mkMember [] false false ["kick_members"]))
  ∧ StoatPermissions.RoleHierarchy.can_moderate_member db_small_guild
      "member_1" "member_2" "g1"
    = (false, Some "You don't have permission to moderate")
  ∧ StoatPermissions.RoleHierarchy.can_moderate_member db_small_guild
      "member_1" "member_2" "g1"
    ≠ (false, Some "target has equal or higher role").
Proof.
  assert (H : StoatPermissions.RoleHierarchy.can_moderate_member db_small_guild
                "member_1" "member_2" "g1"
              = (false, Some "You don't have permission to moderate"))
    by (vm_compute; reflexivity).
  split; [vm_compute; reflexivity|]. split; [vm_compute; reflexivity|].
  split; [vm_compute; reflexivity|]. split; [exact H|].
  rewrite H. intros [=].
Qed.

Lemma equal_top_roles_deny_both_ways_witness :
  StoatPermissions.RoleHierarchy.can_moderate_member db_small_guild
    "member_1" "member_2" "g1"
  = (false, Some "You don't have permission to moderate")
  ∧ StoatPermissions.RoleHierarchy.can_moderate_member db_small_guild
      "member_2" "member_1" "g1"
    = (false, Some "Target has equal or higher role").
Proof.
  refine (equal_top_roles_deny_both_ways db_small_guild "g1"
            "member_1" "member_2" (Database.mkGuild (Some "owner_1"))
            plain_member (Database.mkMember [] false false ["kick_members"])
            (Database.mkRole (Some (-1))) (Database.mkRole (Some (-1)))
            _ _ _ _ _ _ _ _ _).
  - discriminate.
  - vm_compute; reflexivity.
  - discriminate.
  - discriminate.
  - vm_compute; reflexivity.
  - vm_compute; reflexivity.
  - reflexivity.
  - reflexivity.
  - reflexivity.
Defined.

(** * Properties of the permission levels *)

Section PermissionFacts.

Import Database Permissions.PermissionChecker.

Variable lower : string → string.
Variable db : DatabaseManager.

(** Every resolved level is one of 0, 1, 2, 3, also when a lookup
    raises. *)
Lemma get_permission_level_range guild_id user_id :
  0 ≤ get_permission_level db guild_id user_id ≤ 3.
Proof.
  unfold get_permission_level, get_permission_level_body.
  destruct (get_guild db guild_id) as [e|guild]; simpl; [lia|].
  destruct (match guild with Some g => _ | None => _ end); simpl; [lia|].
  destruct (get_member db guild_id user_id) as [e|[m|]]; simpl; [lia| |lia].
  destruct (is_admin m); simpl; [lia|].
  destruct (is_mod m); simpl; lia.
Qed.

(** C7 (as amended).  Unknown permission names fail open, where a name
    is looked up after [str.lower]: when the lower-cased name is not a key
    of the permission table, [has_permission] is true for every user,
    with or without a member document. *)
Theorem unknown_permission_granted guild_id user_id permission :
  permissions_map !! lower permission = None →
  has_permission lower db guild_id user_id permission = true.
Proof.
  intros Hunknown. unfold has_permission. simpl. rewrite Hunknown. simpl.
  apply bool_decide_eq_true.
  apply (get_permission_level_range guild_id user_id).
Qed.

End PermissionFacts.

(** C7 (counterexample).  "BAN_MEMBERS" is not a key of the table, and a
    plain member is refused it: the name is lower-cased to "ban_members",
    which requires level 2. *)
Lemma uppercase_name_not_granted :
  Permissions.PermissionChecker.permissions_map !! "BAN_MEMBERS" = None
  ∧ str_lower "BAN_MEMBERS" = "ban_members"
  ∧ Permissions.PermissionChecker.has_permission str_lower db_small_guild
      "g1" "member_1" "BAN_MEMBERS" = false.
Proof. repeat split; vm_compute; reflexivity. Qed.

Lemma unknown_permission_granted_witness :
  Permissions.PermissionChecker.permissions_map !! str_lower "Fly_Kites" = None
  ∧ Permissions.PermissionChecker.has_permission str_lower
      db_owner_without_record "g1" "stranger" "Fly_Kites" = true.
Proof.
  assert (H : Permissions.PermissionChecker.permissions_map
                !! str_lower "Fly_Kites" = None) by (vm_compute; reflexivity).
  split; [exact H|].
  exact (unknown_permission_granted str_lower db_owner_without_record
           "g1" "stranger" "Fly_Kites" H).
Defined.

(** * Further properties of the rollout manager *)

Section RolloutOperations.

Import Rollout.

Variable hash : string → Z.

(** [can_use_feature] reads the four dictionaries at the feature only,
    and the two sets at the server only. *)
Lemma can_use_feature_ext self1 self2 feature server_id :
  _phase_config self1 !! feature = _phase_config self2 !! feature →
  _rollout_percentages self1 !! feature = _rollout_percentages self2 !! feature →
  (server_id ∈ default ∅ (_whitelist self1 !! feature)
   ↔ server_id ∈ default ∅ (_whitelist self2 !! feature)) →
  (server_id ∈ default ∅ (_blacklist self1 !! feature)
   ↔ server_id ∈ default ∅ (_blacklist self2 !! feature)) →
  can_use_feature hash self1 feature server_id
  = can_use_feature hash self2 feature server_id.
Proof.
  intros Hphase Hpct Hwhite Hblack. unfold can_use_feature.
  rewrite Hphase, Hpct.
  rewrite (decide_ext _ _ _ _ Hblack).
  by rewrite (bool_decide_ext _ _ Hwhite).
Qed.

Lemma set_add_lookup_ne d feature feature' server_id :
  feature ≠ feature' → set_add d feature server_id !! feature' = d !! feature'.
Proof. intros. unfold set_add. by rewrite lookup_insert_ne. Qed.

Lemma set_discard_lookup_ne d feature feature' server_id :
  feature ≠ feature' →
  set_discard d feature server_id !! feature' = d !! feature'.
Proof.
  intros. unfold set_discard. destruct (d !! feature); [|done].
  by rewrite lookup_insert_ne.
Qed.

Lemma set_add_elem d feature server_id x :
  x ∈ default ∅ (set_add d feature server_id !! feature)
  ↔ x = server_id ∨ x ∈ default ∅ (d !! feature).
Proof.
  unfold set_add. rewrite lookup_insert_eq. simpl.
  rewrite elem_of_union, elem_of_singleton. tauto.
Qed.

Lemma set_discard_elem d feature server_id x :
  x ∈ default ∅ (set_discard d feature server_id !! feature)
  ↔ x ≠ server_id ∧ x ∈ default ∅ (d !! feature).
Proof.
  unfold set_discard. destruct (d !! feature) as [s|] eqn:Hd.
  - rewrite lookup_insert_eq. simpl.
    rewrite elem_of_difference, elem_of_singleton. tauto.
  - rewrite Hd. simpl. rewrite elem_of_empty. tauto.
Qed.

(** X1.  An operation on one feature leaves the decision for every other
    feature as it was, for every server. *)
Theorem operation_leaves_other_features self op feature server_id :
  operation_feature op ≠ feature →
  can_use_feature hash (apply_operation self op) feature server_id
  = can_use_feature hash self feature server_id.
Proof.
  intros Hne. apply can_use_feature_ext; destruct op; simpl in *;
    rewrite ?lookup_insert_ne, ?set_add_lookup_ne, ?set_discard_lookup_ne
      by done; done.
Qed.

(** X2.  Putting a server on a blacklist it was not on and taking it off
    again restores every decision. *)
Theorem blacklist_add_then_remove self feature server_id feature' server_id' :
  server_id ∉ default ∅ (_blacklist self !! feature) →
  can_use_feature hash
    (remove_blacklist (add_blacklist self feature server_id) feature server_id)
    feature' server_id'
  = can_use_feature hash self feature' server_id'.
Proof.
  intros Hnot. apply can_use_feature_ext; simpl; try done.
  destruct (decide (feature = feature')) as [<-|Hne].
  - rewrite set_discard_elem, set_add_elem.
    split; [intros [? [?|?]]; done|].
    intros Hin. split; [|by right]. intros ->. done.
  - by rewrite set_discard_lookup_ne, set_add_lookup_ne.
Qed.

(** X3.  After [add_blacklist(feature, server_id)] the server can use the
    feature exactly when the feature is in the stable phase. *)
Theorem blacklisted_enabled_iff_stable self feature server_id :
  can_use_feature hash (add_blacklist self feature server_id) feature server_id
    = true
  ↔ _phase_config self !! feature = Some STABLE.
Proof.
  unfold can_use_feature. simpl.
  assert (Hin : server_id ∈ default ∅
            (set_add (_blacklist self) feature server_id !! feature))
    by (apply set_add_elem; by left).
  destruct (_phase_config self !! feature) as [[]|]; simpl;
    rewrite ?(decide_True _ _ Hin); split; done.
Qed.

(** X4.  In the beta phase the whitelist decides for a server that is not
    blacklisted: [add_whitelist] enables it, [remove_whitelist] disables
    it. *)
Theorem beta_whitelist_decides self feature server_id :
  _phase_config self !! feature = Some BETA →
  server_id ∉ default ∅ (_blacklist self !! feature) →
  can_use_feature hash (add_whitelist self feature server_id) feature server_id
    = true
  ∧ can_use_feature hash (remove_whitelist self feature server_id)
      feature server_id = false.
Proof.
  intros Hphase Hnot. split.
  - rewrite can_use_feature_beta by done. simpl.
    apply bool_decide_eq_true, set_add_elem. by left.
  - rewrite can_use_feature_beta by done. simpl.
    apply bool_decide_eq_false. rewrite set_discard_elem. by intros [? _].
Qed.

(** X5.  The whitelist is read in the beta phase only: for a feature in
    any other phase, [add_whitelist] and [remove_whitelist] change no
    decision. *)
Theorem whitelist_ignored_outside_beta self feature server_id feature' server_id' :
  _phase_config self !! feature ≠ Some BETA →
  can_use_feature hash (add_whitelist self feature server_id) feature' server_id'
    = can_use_feature hash self feature' server_id'
  ∧ can_use_feature hash (remove_whitelist self feature server_id)
      feature' server_id'
    = can_use_feature hash self feature' server_id'.
Proof.
  intros Hphase.
  destruct (decide (feature = feature')) as [<-|Hne].
  - unfold can_use_feature. simpl.
    destruct (_phase_config self !! feature) as [[]|]; done.
  - split; apply can_use_feature_ext; simpl;
      rewrite ?set_add_lookup_ne, ?set_discard_lookup_ne by done; done.
Qed.

(** X6.  The percentage is read in the gradual phase only: for a feature
    in any other phase, [set_rollout_percentage] changes no decision. *)
Theorem percentage_ignored_outside_gradual self feature percentage
    feature' server_id' :
  _phase_config self !! feature ≠ Some GRADUAL →
  can_use_feature hash (set_rollout_percentage self feature percentage)
    feature' server_id'
  = can_use_feature hash self feature' server_id'.
Proof.
  intros Hphase.
  destruct (decide (feature = feature')) as [<-|Hne].
  - unfold can_use_feature. simpl.
    destruct (_phase_config self !! feature) as [[]|]; done.
  - apply can_use_feature_ext; simpl; rewrite ?lookup_insert_ne by done; done.
Qed.

End RolloutOperations.

Section RolloutStatus.

Import Rollout.

Variable hash : string → Z.

Lemma init_percentages_in_range : percentages_in_range init.
Proof.
  unfold percentages_in_range, init. simpl.
  repeat (apply map_Forall_insert_2; [lia|]). apply map_Forall_empty.
Qed.

Lemma apply_operation_percentages_in_range self op :
  percentages_in_range self → percentages_in_range (apply_operation self op).
Proof.
  unfold percentages_in_range. intros Hinv. destruct op; simpl; try done.
  apply map_Forall_insert_2; [lia|done].
Qed.

Lemma apply_operations_percentages_in_range ops :
  ∀ self, percentages_in_range self →
          percentages_in_range (apply_operations self ops).
Proof.
  unfold apply_operations.
  induction ops as [|op ops IH]; intros self Hinv; simpl; [done|].
  by apply IH, apply_operation_percentages_in_range.
Qed.

Lemma value_inj p q : value p = value q → p = q.
Proof. destruct p, q; simpl; intros H; by try discriminate H. Qed.

(** X7.  Whatever management operations are applied to a fresh manager,
    in whatever order, every stored percentage stays in [0, 100], and so
    does the percentage [get_feature_status] reports for any feature. *)
Theorem percentages_stay_in_range ops feature :
  percentages_in_range (apply_operations init ops)
  ∧ 0 ≤ report_percentage (get_feature_status (apply_operations init ops) feature)
      ≤ 100.
Proof.
  assert (Hinv : percentages_in_range (apply_operations init ops))
    by apply apply_operations_percentages_in_range, init_percentages_in_range.
  split; [done|]. unfold get_feature_status. simpl.
  repeat case_decide; try lia.
  destruct (_rollout_percentages (apply_operations init ops) !! feature)
    as [p|] eqn:Hp; simpl; [|lia].
  by apply (Hinv feature p).
Qed.

(** X8.  The report of [get_feature_status] agrees with the decision at
    its two ends: when it reports 100 percent, every server that is not
    blacklisted can use the feature; when it reports 0 percent for a phase
    other than beta, no server can. *)
Theorem reported_percentage_extremes self feature server_id :
  (report_percentage (get_feature_status self feature) = 100 →
   server_id ∉ default ∅ (_blacklist self !! feature) →
   can_use_feature hash self feature server_id = true)
  ∧ (report_percentage (get_feature_status self feature) = 0 →
     report_phase (get_feature_status self feature) ≠ "beta" →
     can_use_feature hash self feature server_id = false).
Proof.
  pose proof (bucket_range hash (server_id ++ "_" ++ feature)) as Hrange.
  unfold get_feature_status, can_use_feature. simpl.
  split.
  - intros Hpct Hnot. rewrite (decide_False _ _ Hnot).
    destruct (default INTERNAL (_phase_config self !! feature));
      simpl in *; try done.
    rewrite Hpct. apply bool_decide_eq_true. lia.
  - intros Hpct Hbeta.
    destruct (default INTERNAL (_phase_config self !! feature));
      simpl in *; try done; case_decide; try done.
    rewrite Hpct. apply bool_decide_eq_false. lia.
Qed.

End RolloutStatus.

(** * Export and import *)

Section ExportImport.

Import Rollout.

Variable hash : string → Z.

(** A loop whose body only stores is a left fold. *)
Lemma for_each_modify {A} (items : list A)
    (f : A → StoatRolloutManager → StoatRolloutManager) :
  ∀ self,
    for_each items (λ item, modify (f item)) self
    = (foldl (λ acc item, f item acc) self items, inr tt).
Proof.
  induction items as [|item rest IH]; intros self; simpl; [done|].
  unfold mbind at 1. unfold modify at 1. by rewrite IH.
Qed.

Lemma foldl_set_whitelist_entry items :
  ∀ self,
    foldl (λ acc item, set_whitelist_entry item.1 item.2 acc) self items
    = {| _phase_config := _phase_config self;
         _rollout_percentages := _rollout_percentages self;
         _whitelist :=
           dict_update (_whitelist self)
             ((λ item, (item.1, list_to_set item.2)) <$> items);
         _blacklist := _blacklist self |}.
Proof.
  induction items as [|item rest IH]; intros self; simpl.
  - by destruct self.
  - by rewrite IH.
Qed.

Lemma foldl_set_blacklist_entry items :
  ∀ self,
    foldl (λ acc item, set_blacklist_entry item.1 item.2 acc) self items
    = {| _phase_config := _phase_config self;
         _rollout_percentages := _rollout_percentages self;
         _whitelist := _whitelist self;
         _blacklist :=
           dict_update (_blacklist self)
             ((λ item, (item.1, list_to_set item.2)) <$> items) |}.
Proof.
  induction items as [|item rest IH]; intros self; simpl.
  - by destruct self.
  - by rewrite IH.
Qed.

(** The result of an import whose phase strings are all valid. *)
Lemma import_config_all_sections self config :
  Forall (λ item, valid_phase_string item.2) (phases config) →
  import_config self config =
    {| _phase_config :=
         dict_update (_phase_config self) (applied_phases (phases config));
       _rollout_percentages :=
         dict_update (_rollout_percentages self) (percentages config);
       _whitelist :=
         dict_update (_whitelist self)
           ((λ item, (item.1, list_to_set item.2)) <$> whitelist config);
       _blacklist :=
         dict_update (_blacklist self)
           ((λ item, (item.1, list_to_set item.2)) <$> blacklist config) |}.
Proof.
  intros Hvalid. unfold import_config, import_config_body.
  unfold mbind at 1. rewrite (import_phases_returns _ Hvalid).
  unfold mbind at 1. unfold modify at 1.
  unfold mbind at 1. rewrite for_each_modify.
  rewrite for_each_modify. simpl.
  rewrite foldl_set_blacklist_entry, foldl_set_whitelist_entry. done.
Qed.

(** X9.  A configuration all of whose phase strings are valid is imported
    in full: the phases, the percentages, the whitelists and the
    blacklists it lists are stored over the registry, a later item for the
    same key winning over an earlier one, and every other key keeps its
    value.  The percentages are stored as they come, without clamping. *)
Theorem import_config_valid self config :
  Forall (λ item, valid_phase_string item.2) (phases config) →
  import_config self config =
    {| _phase_config :=
         dict_update (_phase_config self) (applied_phases (phases config));
       _rollout_percentages :=
         dict_update (_rollout_percentages self) (percentages config);
       _whitelist :=
         dict_update (_whitelist self)
           ((λ item, (item.1, list_to_set item.2)) <$> whitelist config);
       _blacklist :=
         dict_update (_blacklist self)
           ((λ item, (item.1, list_to_set item.2)) <$> blacklist config) |}.
Proof.
  intros Hvalid. unfold import_config, import_config_body.
  unfold mbind at 1. rewrite (import_phases_returns _ Hvalid).
  unfold mbind at 1. unfold modify at 1.
  unfold mbind at 1. rewrite for_each_modify.
  rewrite for_each_modify. simpl.
  rewrite foldl_set_blacklist_entry, foldl_set_whitelist_entry. done.
Qed.

(** The result of an import that meets an invalid phase string. *)
Lemma import_config_invalid self config :
  Exists (λ item, ¬ valid_phase_string item.2) (phases config) →
  import_config self config =
    {| _phase_config :=
         dict_update (_phase_config self) (applied_phases (phases config));
       _rollout_percentages := _rollout_percentages self;
       _whitelist := _whitelist self;
       _blacklist := _blacklist self |}.
Proof.
  intros Hex. unfold import_config, import_config_body.
  destruct (import_phases_raises _ Hex self) as [e He].
  unfold mbind at 1. by rewrite He.
Qed.

(** [d.update(items)] leaves alone the keys that [items] does not have. *)
Lemma dict_update_lookup_ne {V} (items : list (string * V)) :
  ∀ (d : gmap string V) k, k ∉ items.*1 → dict_update d items !! k = d !! k.
Proof.
  unfold dict_update.
  induction items as [|[k' v] rest IH]; intros d k Hk; simpl; [done|].
  apply not_elem_of_cons in Hk as [Hne Hk].
  rewrite IH by done. by rewrite lookup_insert_ne.
Qed.

(** With keys that are all different, [d.update(items)] is the union of
    the items with [d], the items first. *)
Lemma dict_update_union {V} (items : list (string * V)) :
  ∀ d : gmap string V, NoDup items.*1 →
    dict_update d items = list_to_map items ∪ d.
Proof.
  unfold dict_update.
  induction items as [|[k v] rest IH]; intros d Hnodup; simpl.
  - by rewrite (left_id_L ∅ (∪)).
  - apply NoDup_cons in Hnodup as [Hk Hnodup].
    rewrite IH by done.
    rewrite <-insert_union_l.
    rewrite insert_union_r; [done|].
    by apply not_elem_of_list_to_map_1.
Qed.

Lemma dict_update_map_to_list {V} (m d : gmap string V) :
  dict_update d (map_to_list m) = m ∪ d.
Proof.
  rewrite dict_update_union by apply NoDup_fst_map_to_list.
  by rewrite list_to_map_to_list.
Qed.

Lemma applied_phases_fst items : (applied_phases items).*1 ⊆ items.*1.
Proof.
  induction items as [|item rest IH]; simpl; [done|].
  destruct (RolloutPhase_of_value item.2); simpl.
  - apply list_subseteq_nil.
  - intros x. rewrite !elem_of_cons. intros [->|Hx]; [by left|right; by apply IH].
Qed.

Lemma applied_phases_exported (items : list (string * RolloutPhase)) :
  applied_phases ((λ kv, (kv.1, value kv.2)) <$> items) = items.
Proof.
  induction items as [|[k p] rest IH]; simpl; [done|].
  rewrite (proj2 (RolloutPhase_of_value_inr (value p) p) eq_refl).
  simpl. f_equal. exact IH.
Qed.

Lemma exported_phases_valid (items : list (string * RolloutPhase)) :
  Forall (λ item, valid_phase_string item.2)
         ((λ kv, (kv.1, value kv.2)) <$> items).
Proof.
  apply Forall_fmap, Forall_forall. intros [k p] _. simpl. by exists p.
Qed.

Lemma exported_sets (items : list (string * gset string)) :
  (λ item : string * list string, (item.1, list_to_set item.2))
    <$> ((λ kv, (kv.1, elements kv.2)) <$> items) = items.
Proof.
  induction items as [|[k s] rest IH]; simpl; [done|].
  rewrite list_to_set_elements_L. f_equal. exact IH.
Qed.

(** X10.  Export then import.  Importing what a manager exports into any
    manager never fails and gives, dictionary by dictionary, the entries
    of the exporting manager, and the importing manager's own entries for
    the keys the exporting one does not have.  In particular a manager
    that imports its own export is unchanged, and an empty manager becomes
    the exporting one. *)
Theorem export_then_import now self other :
  import_config other (exported (export_config now self)) =
    {| _phase_config := _phase_config self ∪ _phase_config other;
       _rollout_percentages := _rollout_percentages self ∪ _rollout_percentages other;
       _whitelist := _whitelist self ∪ _whitelist other;
       _blacklist := _blacklist self ∪ _blacklist other |}
  ∧ import_config self (exported (export_config now self)) = self
  ∧ import_config empty_manager (exported (export_config now self)) = self.
Proof.
  assert (Himport : ∀ other,
    import_config other (exported (export_config now self)) =
      {| _phase_config := _phase_config self ∪ _phase_config other;
         _rollout_percentages := _rollout_percentages self ∪ _rollout_percentages other;
         _whitelist := _whitelist self ∪ _whitelist other;
         _blacklist := _blacklist self ∪ _blacklist other |}).
  { intros m. rewrite import_config_all_sections by apply exported_phases_valid.
    simpl. rewrite applied_phases_exported, !exported_sets.
    by rewrite !dict_update_map_to_list. }
  split; [apply Himport|]. split; rewrite Himport.
  - rewrite !(idemp_L (∪)). by destruct self.
  - simpl. rewrite !(right_id_L ∅ (∪)). by destruct self.
Qed.

Lemma phases_valid_or_not (items : list (string * string)) :
  Forall (λ item, valid_phase_string item.2) items
  ∨ Exists (λ item, ¬ valid_phase_string item.2) items.
Proof.
  induction items as [|item rest [IH|IH]].
  - by left.
  - destruct (RolloutPhase_of_value item.2) as [e|p] eqn:Hitem.
    + right. apply Exists_cons_hd. intros [q Hq].
      apply RolloutPhase_of_value_inr in Hq. congruence.
    + left. apply Forall_cons_2; [|done]. exists p.
      by apply RolloutPhase_of_value_inr.
  - right. by apply Exists_cons_tl.
Qed.

(** X11.  Whether it succeeds or stops on an invalid phase, an import
    changes nothing for a feature that the configuration does not
    mention: its phase, percentage, whitelist and blacklist are kept, and
    so is the decision for every server. *)
Theorem import_config_leaves_unmentioned self config feature server_id :
  feature ∉ (phases config).*1 →
  feature ∉ (percentages config).*1 →
  feature ∉ (whitelist config).*1 →
  feature ∉ (blacklist config).*1 →
  _phase_config (import_config self config) !! feature
    = _phase_config self !! feature
  ∧ _rollout_percentages (import_config self config) !! feature
    = _rollout_percentages self !! feature
  ∧ _whitelist (import_config self config) !! feature
    = _whitelist self !! feature
  ∧ _blacklist (import_config self config) !! feature
    = _blacklist self !! feature
  ∧ can_use_feature hash (import_config self config) feature server_id
    = can_use_feature hash self feature server_id.
Proof.
  intros Hphases Hpcts Hwhite Hblack.
  assert (Happlied : feature ∉ (applied_phases (phases config)).*1)
    by (intros Hin; by apply Hphases, applied_phases_fst).
  assert (Hkeys : ∀ items : list (string * list string),
            ((λ item : string * list string, (item.1, list_to_set (C:=gset string) item.2))
               <$> items).*1 = items.*1).
  { intros items. rewrite <-list_fmap_compose. by apply list_fmap_ext. }
  assert (H4 :
    _phase_config (import_config self config) !! feature
      = _phase_config self !! feature
    ∧ _rollout_percentages (import_config self config) !! feature
      = _rollout_percentages self !! feature
    ∧ _whitelist (import_config self config) !! feature
      = _whitelist self !! feature
    ∧ _blacklist (import_config self config) !! feature
      = _blacklist self !! feature).
  { destruct (phases_valid_or_not (phases config)) as [Hvalid|Hinvalid].
    - rewrite import_config_all_sections by done. simpl.
      rewrite !dict_update_lookup_ne; rewrite ?Hkeys; done.
    - rewrite import_config_invalid by done. simpl.
      by rewrite dict_update_lookup_ne. }
  destruct H4 as (H1 & H2 & H3 & H4).
  repeat (split; [done|]).
  apply can_use_feature_ext; by rewrite ?H1, ?H2, ?H3, ?H4.
Qed.

End ExportImport.

(** * Phase progress *)

Section PhaseProgressFacts.

Import Rollout.

Variable eta_in_days : Z → string.

Lemma phase_progress_entry_deprecated feature :
  ∃ e, phase_progress_entry eta_in_days feature DEPRECATED = inl e.
Proof. eexists. reflexivity. Qed.

Lemma phase_progress_entry_other feature phase :
  phase ≠ DEPRECATED →
  ∃ entry, phase_progress_entry eta_in_days feature phase = inr entry.
Proof. intros Hphase. destruct phase; try done; eexists; reflexivity. Qed.

Lemma phase_progress_loop_raises items :
  Exists (λ item, item.2 = DEPRECATED) items →
  ∀ progress, ∃ e, phase_progress_loop eta_in_days items progress = inl e.
Proof.
  induction items as [|[feature phase] rest IH]; intros Hex progress.
  - by apply Exists_nil in Hex.
  - simpl. destruct (decide (phase = DEPRECATED)) as [->|Hphase].
    + destruct (phase_progress_entry_deprecated feature) as [e ->]. by exists e.
    + destruct (phase_progress_entry_other feature phase Hphase) as [entry ->].
      simpl. apply IH. apply Exists_cons in Hex as [Hhd|Htl]; done.
Qed.

Lemma phase_progress_loop_returns items :
  NoDup items.*1 →
  Forall (λ item, item.2 ≠ DEPRECATED) items →
  ∀ progress, ∃ result,
    phase_progress_loop eta_in_days items progress = inr result
    ∧ ∀ feature,
        result !! feature =
          match (list_to_map items : gmap string RolloutPhase) !! feature with
          | Some phase => stored_entry eta_in_days feature phase
          | None => progress !! feature
          end.
Proof.
  induction items as [|[k phase] rest IH]; intros Hnodup Hall progress.
  - exists progress. split; [done|]. intros feature. simpl.
    by rewrite lookup_empty.
  - apply NoDup_cons in Hnodup as [Hk Hnodup].
    apply Forall_cons in Hall as [Hphase Hall]. simpl in Hphase.
    destruct (phase_progress_entry_other k phase Hphase) as [entry Hentry].
    destruct (IH Hnodup Hall (<[k := entry]> progress)) as (result & Hloop & Hres).
    exists result. simpl. rewrite Hentry. simpl. split; [done|].
    intros feature. rewrite Hres.
    destruct (decide (k = feature)) as [<-|Hne].
    + rewrite lookup_insert_eq.
      rewrite (not_elem_of_list_to_map_1 _ _ Hk).
      rewrite lookup_insert_eq. unfold stored_entry. by rewrite Hentry.
    + by rewrite !lookup_insert_ne.
Qed.

Lemma deprecated_or_not (items : list (string * RolloutPhase)) :
  Forall (λ item, item.2 ≠ DEPRECATED) items
  ∨ Exists (λ item, item.2 = DEPRECATED) items.
Proof.
  induction items as [|item rest [IH|IH]].
  - by left.
  - destruct (decide (item.2 = DEPRECATED)).
    + right. by apply Exists_cons_hd.
    + left. by apply Forall_cons_2.
  - right. by apply Exists_cons_tl.
Qed.

(** X12.  [get_phase_progress] raises exactly when some feature is in the
    deprecated phase: for such a feature [_get_next_phase] returns [None]
    and [.value] is read from it. *)
Theorem get_phase_progress_raises_iff_deprecated self :
  (∃ e, get_phase_progress eta_in_days self = inl e)
  ↔ ∃ feature, _phase_config self !! feature = Some DEPRECATED.
Proof.
  unfold get_phase_progress. split.
  - intros [e He].
    destruct (deprecated_or_not (map_to_list (_phase_config self)))
      as [Hnone|Hsome].
    + destruct (phase_progress_loop_returns _
                  (NoDup_fst_map_to_list _) Hnone ∅) as (result & Hres & _).
      congruence.
    + apply Exists_exists in Hsome as ([feature phase] & Hin & Hphase).
      simpl in Hphase. subst phase. exists feature.
      by apply elem_of_map_to_list.
  - intros [feature Hfeature]. apply phase_progress_loop_raises.
    apply Exists_exists. exists (feature, DEPRECATED).
    split; [by apply elem_of_map_to_list|done].
Qed.

(** When no feature is deprecated, [get_phase_progress] returns one
    entry for each feature of the registry and nothing else; the entry
    names the phase, the next phase in the order internal, beta, gradual,
    stable, and no next phase for stable. *)
Lemma get_phase_progress_entries self :
  (∀ feature, _phase_config self !! feature ≠ Some DEPRECATED) →
  ∃ progress,
    get_phase_progress eta_in_days self = inr progress
    ∧ ∀ feature,
        progress !! feature =
          (λ phase,
             {| progress_phase := value phase;
                progress_percentage := _get_progress_percentage phase;
                progress_next_phase := value <$> _get_next_phase phase;
                progress_eta := _estimate_eta eta_in_days feature phase |})
          <$> _phase_config self !! feature.
Proof.
  intros Hnone. unfold get_phase_progress.
  assert (Hall : Forall (λ item, item.2 ≠ DEPRECATED)
                   (map_to_list (_phase_config self))).
  { apply Forall_forall. intros [feature phase] Hin. simpl. intros ->.
    by apply (Hnone feature), elem_of_map_to_list. }
  destruct (phase_progress_loop_returns _ (NoDup_fst_map_to_list _) Hall ∅)
    as (result & Hres & Hlookup).
  exists result. split; [done|]. intros feature.
  rewrite Hlookup, list_to_map_to_list.
  destruct (_phase_config self !! feature) as [phase|] eqn:Hphase; simpl.
  - unfold stored_entry. destruct phase; try reflexivity.
    by destruct (Hnone feature).
  - apply lookup_empty.
Qed.

(** [_get_next_phase] walks the order internal, beta, gradual,
    stable: it has no answer exactly for stable and deprecated, and each
    step it takes adds 25 to [_get_progress_percentage]. *)
Lemma next_phase_advances phase :
  (_get_next_phase phase = None ↔ phase = STABLE ∨ phase = DEPRECATED)
  ∧ ∀ next, _get_next_phase phase = Some next →
            _get_progress_percentage next = _get_progress_percentage phase + 25.
Proof.
  split.
  - destruct phase; split; intros H;
      try (vm_compute in H; discriminate H);
      try (destruct H as [H|H]; discriminate H);
      try reflexivity; try (by left); by right.
  - intros next Hnext.
    destruct phase; vm_compute in Hnext; try discriminate Hnext;
      injection Hnext as <-; reflexivity.
Qed.

End PhaseProgressFacts.

(** * Feature flags *)

Section FeatureFlagFacts.

Import FeatureFlags.

Variable hash : string → Z.

(** X13.  Without a server id ([None] or the empty string) a feature is
    enabled exactly when its flag exists and has the status enabled: the
    percentage is never consulted. *)
Theorem is_enabled_without_server flags feature server_id :
  server_id = None ∨ server_id = Some "" →
  is_enabled hash flags feature server_id = true
  ↔ ∃ flag, flags !! feature = Some flag ∧ status flag = Some ENABLED.
Proof.
  intros Hserver. unfold is_enabled.
  destruct (flags !! feature) as [[st ro de]|].
  2: { split; [done|]. by intros (? & [=] & _). }
  split.
  - intros H.
    destruct st as [[]|]; try (eexists; split; reflexivity); exfalso;
      destruct Hserver as [->| ->]; destruct ro, de;
      vm_compute in H; discriminate H.
  - intros (flag & [= <-] & Hst). simpl in Hst. subst st. reflexivity.
Qed.

(** X14.  [set_status(feature, ENABLED)] turns the feature on for every
    server id exactly when the flag exists (it never creates a flag);
    [set_status(feature, DISABLED)] turns it off in every case. *)
Theorem set_status_switches flags feature server_id :
  is_enabled hash (set_status flags feature ENABLED) feature server_id
    = bool_decide (is_Some (flags !! feature))
  ∧ is_enabled hash (set_status flags feature DISABLED) feature server_id
    = false.
Proof.
  unfold set_status, is_enabled.
  destruct (flags !! feature) as [flag|] eqn:Hflag.
  - rewrite !lookup_insert_eq. simpl. by split.
  - rewrite Hflag. by split.
Qed.

Lemma is_enabled_set_rollout flags feature percentage flag server_id :
  flags !! feature = Some flag →
  status flag ≠ Some ENABLED →
  status flag ≠ Some DISABLED →
  status flag ≠ None →
  server_id ≠ "" →
  is_enabled hash (set_rollout flags feature percentage) feature (Some server_id)
  = bool_decide (hash (server_id ++ "_" ++ feature) `mod` 100
                 < Z.max 0 (Z.min 100 percentage)).
Proof.
  intros Hflag Hen Hdis Hnone Hserver. unfold set_rollout, is_enabled.
  rewrite Hflag, lookup_insert_eq. simpl.
  destruct (status flag) as [[]|]; simpl; try done; by rewrite decide_False.
Qed.

(** Raising the rollout of a flag never disables a server:
    if a server is enabled after [set_rollout(feature, p1)], it is enabled
    after [set_rollout(feature, p2)] for every [p2 >= p1]. *)
Lemma set_rollout_monotone flags feature server_id (p1 p2 : Z) :
  p1 ≤ p2 →
  is_enabled hash (set_rollout flags feature p1) feature server_id = true →
  is_enabled hash (set_rollout flags feature p2) feature server_id = true.
Proof.
  intros Hle. unfold set_rollout, is_enabled.
  destruct (flags !! feature) as [flag|] eqn:Hflag.
  - rewrite !lookup_insert_eq. simpl. unfold truthy. simpl.
    destruct (status flag) as [[]|]; simpl; try done;
      destruct server_id as [server_id|]; try done;
      case_decide; try done;
      rewrite !bool_decide_eq_true; lia.
  - by rewrite Hflag.
Qed.

(** X15.  The statuses internal, beta and gradual are all decided by the
    percentage alone: for a flag in one of them and a server id that is not
    empty, [set_rollout] to 0 or less disables every server and
    [set_rollout] to 100 or more enables every server. *)
Theorem set_rollout_extremes flags feature flag server_id percentage :
  flags !! feature = Some flag →
  status flag = Some INTERNAL ∨ status flag = Some BETA
    ∨ status flag = Some GRADUAL →
  server_id ≠ "" →
  (percentage ≤ 0 →
   is_enabled hash (set_rollout flags feature percentage) feature
     (Some server_id) = false)
  ∧ (100 ≤ percentage →
     is_enabled hash (set_rollout flags feature percentage) feature
       (Some server_id) = true).
Proof.
  intros Hflag Hstatus Hserver.
  pose proof (Z.mod_pos_bound (hash (server_id ++ "_" ++ feature)) 100) as Hr.
  rewrite (is_enabled_set_rollout _ _ _ flag) by
    (try done; destruct Hstatus as [->|[->| ->]]; done).
  split; intros Hp.
  - apply bool_decide_eq_false. lia.
  - apply bool_decide_eq_true. lia.
Qed.

End FeatureFlagFacts.

(** * The permission flags of [adapters/stoat_permissions.py] *)

(** [public_names] is what [dir] gives: the attribute names of the class,
    in strictly increasing order. *)
Lemma public_names_sorted :
  StoatPermissions.public_names ≡ₚ StoatPermissions.StoatPermissions_attributes.*1
  ∧ StronglySorted (λ a b, String.ltb a b = true) StoatPermissions.public_names.
Proof.
  split.
  - apply (bool_decide_unpack _). vm_compute. reflexivity.
  - apply (bool_decide_unpack _). vm_compute. reflexivity.
Qed.

Section FlagCheckerFacts.

Import Database StoatPermissions.PermissionChecker.

Variable db : DatabaseManager.

Lemma check_permission_member guild_id user_id m permission :
  get_member db guild_id user_id = inr (Some m) →
  check_permission db guild_id user_id permission
  = (is_admin m || bool_decide (permission ∈ permissions m)).
Proof.
  intros Hm. unfold check_permission. rewrite Hm. simpl.
  by destruct (is_admin m).
Qed.

Lemma check_permission_no_member guild_id user_id permission :
  (∀ m, get_member db guild_id user_id ≠ inr (Some m)) →
  check_permission db guild_id user_id permission = false.
Proof.
  intros Hnone. unfold check_permission.
  destruct (get_member db guild_id user_id) as [e|[m|]]; simpl; try done.
  by destruct (Hnone m).
Qed.

(** X16.  [check_any_permission] holds exactly when [check_permission]
    holds for some permission of the list, and [check_all_permissions]
    exactly when it holds for every permission of the list. *)
Theorem check_any_all_permissions guild_id user_id perms :
  (check_any_permission db guild_id user_id perms = true
   ↔ ∃ perm, perm ∈ perms ∧ check_permission db guild_id user_id perm = true)
  ∧ (check_all_permissions db guild_id user_id perms = true
     ↔ ∀ perm, perm ∈ perms → check_permission db guild_id user_id perm = true).
Proof.
  split.
  - induction perms as [|perm rest IH]; simpl.
    + split; [done|]. intros (? & Hin & _). by apply elem_of_nil in Hin.
    + destruct (check_permission db guild_id user_id perm) eqn:Hperm.
      * split; [|done]. intros _. exists perm. split; [left|done].
      * rewrite IH. split.
        -- intros (p & Hin & Hp). exists p. split; [by right|done].
        -- intros (p & Hin & Hp).
           apply elem_of_cons in Hin as [->|Hin]; [congruence|eauto].
  - induction perms as [|perm rest IH]; simpl.
    + split; [|done]. intros _ ? Hin. by apply elem_of_nil in Hin.
    + destruct (check_permission db guild_id user_id perm) eqn:Hperm; simpl.
      * rewrite IH. split.
        -- intros Hall p Hin.
           apply elem_of_cons in Hin as [->|Hin]; [done|by apply Hall].
        -- intros Hall p Hin. apply Hall. by right.
      * split; [done|]. intros Hall.
        rewrite <-Hperm. apply Hall. left.
Qed.

(** X17.  For a user without a member document (not found, or the lookup
    fails) no permission is granted and [get_user_permissions] is empty,
    yet [check_all_permissions] answers [True] for the empty list. *)
Theorem non_member_permissions guild_id user_id perms :
  (∀ m, get_member db guild_id user_id ≠ inr (Some m)) →
  check_any_permission db guild_id user_id perms = false
  ∧ (check_all_permissions db guild_id user_id perms = true ↔ perms = [])
  ∧ get_user_permissions db guild_id user_id = [].
Proof.
  intros Hnone.
  assert (Hcheck : ∀ p, check_permission db guild_id user_id p = false)
    by (intros p; by apply check_permission_no_member).
  split; [|split].
  - induction perms as [|perm rest IH]; simpl; [done|]. by rewrite Hcheck.
  - destruct perms as [|perm rest]; simpl; [done|]. by rewrite Hcheck.
  - unfold get_user_permissions.
    destruct (get_member db guild_id user_id) as [e|[m|]]; simpl; try done.
    by destruct (Hnone m).
Qed.

(** X18.  An admin is granted every permission, and
    [get_user_permissions] lists for an admin the attribute names of
    [StoatPermissions] (upper case), not their values: none of the
    permission strings the class defines is in the list. *)
Theorem admin_permissions guild_id user_id m :
  get_member db guild_id user_id = inr (Some m) →
  is_admin m = true →
  (∀ permission, check_permission db guild_id user_id permission = true)
  ∧ (∀ perms, check_all_permissions db guild_id user_id perms = true)
  ∧ get_user_permissions db guild_id user_id = StoatPermissions.public_names
  ∧ ∀ attribute, attribute ∈ StoatPermissions.StoatPermissions_attributes →
      attribute.1 ∈ get_user_permissions db guild_id user_id
      ∧ attribute.2 ∉ get_user_permissions db guild_id user_id.
Proof.
  intros Hm Hadmin.
  assert (Hcheck : ∀ p, check_permission db guild_id user_id p = true).
  { intros p. rewrite (check_permission_member _ _ m) by done.
    by rewrite Hadmin. }
  assert (Hlist : get_user_permissions db guild_id user_id
                  = StoatPermissions.public_names).
  { unfold get_user_permissions. rewrite Hm. simpl. by rewrite Hadmin. }
  split; [done|]. split; [|split; [done|]].
  - intros perms. induction perms as [|perm rest IH]; simpl; [done|].
    by rewrite Hcheck.
  - rewrite Hlist.
    assert (Hall : Forall (λ attribute : string * string,
              attribute.1 ∈ StoatPermissions.public_names
              ∧ attribute.2 ∉ StoatPermissions.public_names)
              StoatPermissions.StoatPermissions_attributes).
    { apply (bool_decide_unpack _). vm_compute. reflexivity. }
    intros attribute Hin. by apply (proj1 (Forall_forall _ _) Hall).
Qed.

(** X19.  [get_user_permissions] never lists a permission that
    [check_permission] refuses; for a member who is not an admin the two
    agree. *)
Theorem listed_permissions_are_granted guild_id user_id permission :
  (permission ∈ get_user_permissions db guild_id user_id →
   check_permission db guild_id user_id permission = true)
  ∧ (∀ m, get_member db guild_id user_id = inr (Some m) →
          is_admin m = false →
          (permission ∈ get_user_permissions db guild_id user_id
           ↔ check_permission db guild_id user_id permission = true)).
Proof.
  split.
  - unfold get_user_permissions, check_permission.
    destruct (get_member db guild_id user_id) as [e|[m|]]; simpl;
      try (intros Hin; by apply elem_of_nil in Hin).
    destruct (is_admin m); [done|]. by rewrite bool_decide_eq_true.
  - intros m Hm Hadmin. unfold get_user_permissions, check_permission.
    rewrite Hm. simpl. rewrite Hadmin. by rewrite bool_decide_eq_true.
Qed.

End FlagCheckerFacts.

(** * Further properties of the role hierarchy *)

Section TopRoleFacts.

Import Database StoatPermissions.RoleHierarchy.

Variable db : DatabaseManager.

Lemma max_from_elem best rest : max_from best rest ∈ best :: rest.
Proof.
  revert best. induction rest as [|r rest IH]; intros best; simpl; [left|].
  case_decide.
  - right. apply IH.
  - specialize (IH best). apply elem_of_cons in IH as [->|IH]; [left|].
    right. by right.
Qed.

Lemma max_from_lower rest :
  ∀ best, position_of best ≤ position_of (max_from best rest).
Proof.
  induction rest as [|r rest IH]; intros best; simpl; [lia|].
  case_decide.
  - etrans; [|apply IH]. lia.
  - apply IH.
Qed.

Lemma max_from_upper rest r :
  ∀ best, r ∈ best :: rest →
          position_of r ≤ position_of (max_from best rest).
Proof.
  induction rest as [|r' rest IH]; intros best Hin; simpl.
  - apply list_elem_of_singleton in Hin as ->. lia.
  - apply elem_of_cons in Hin as [->|Hin].
    + case_decide.
      * etrans; [|apply max_from_lower]. lia.
      * apply max_from_lower.
    + apply elem_of_cons in Hin as [->|Hin].
      * case_decide.
        -- apply max_from_lower.
        -- etrans; [|apply max_from_lower]. lia.
      * apply IH. by right.
Qed.

Lemma resolve_roles_elem guild_id role_ids roles r :
  resolve_roles db guild_id role_ids = inr roles →
  r ∈ roles
  ↔ ∃ role_id, role_id ∈ role_ids ∧ get_role db guild_id role_id = inr (Some r).
Proof.
  revert roles. induction role_ids as [|role_id rest IH]; intros roles; simpl.
  - intros [= <-]. split.
    + intros Hin. by apply elem_of_nil in Hin.
    + intros (? & Hin & _). by apply elem_of_nil in Hin.
  - destruct (get_role db guild_id role_id) as [e|role] eqn:Hrole; simpl; [done|].
    destruct (resolve_roles db guild_id rest) as [e|roles'] eqn:Hrest;
      simpl; [done|].
    intros [= <-]. specialize (IH roles' eq_refl).
    assert (Hrest_iff : r ∈ roles' ↔
              ∃ role_id', role_id' ∈ rest
                          ∧ get_role db guild_id role_id' = inr (Some r))
      by exact IH.
    destruct role as [role|].
    + rewrite elem_of_cons, Hrest_iff. split.
      * intros [->|(id & Hin & Hid)].
        -- exists role_id. split; [left|done].
        -- exists id. split; [by right|done].
      * intros (id & Hin & Hid).
        apply elem_of_cons in Hin as [->|Hin].
        -- left. congruence.
        -- right. eauto.
    + rewrite Hrest_iff. split.
      * intros (id & Hin & Hid). exists id. split; [by right|done].
      * intros (id & Hin & Hid).
        apply elem_of_cons in Hin as [->|Hin]; [congruence|eauto].
Qed.

(** The top role is one of the roles that resolve, or the implicit role
    when none does. *)
Lemma top_role_cases guild_id role_ids top :
  _get_top_role db guild_id role_ids = inr top →
  (top = mkRole (Some (-1))
   ∧ ∀ role_id r, role_id ∈ role_ids →
                  get_role db guild_id role_id ≠ inr (Some r))
  ∨ ∃ role_id, role_id ∈ role_ids
               ∧ get_role db guild_id role_id = inr (Some top).
Proof.
  unfold _get_top_role.
  destruct (resolve_roles db guild_id role_ids) as [e|roles] eqn:Hroles;
    simpl; [done|].
  intros [= <-]. destruct roles as [|r rest].
  - left. split; [done|]. intros role_id r Hin Hr.
    assert (Hel : r ∈ @nil Role)
      by (apply (resolve_roles_elem _ _ _ _ Hroles); eauto).
    by apply elem_of_nil in Hel.
  - right. apply (resolve_roles_elem _ _ _ _ Hroles), max_from_elem.
Qed.

Lemma top_role_upper guild_id role_ids top role_id r :
  _get_top_role db guild_id role_ids = inr top →
  role_id ∈ role_ids →
  get_role db guild_id role_id = inr (Some r) →
  position_of r ≤ position_of top.
Proof.
  unfold _get_top_role.
  destruct (resolve_roles db guild_id role_ids) as [e|roles] eqn:Hroles;
    simpl; [done|].
  intros [= <-] Hin Hr.
  assert (Hel : r ∈ roles)
    by (apply (resolve_roles_elem _ _ _ _ Hroles); eauto).
  destruct roles as [|r0 rest]; [by apply elem_of_nil in Hel|].
  by apply max_from_upper.
Qed.

(** X20.  The top role is a maximum: no role of the member that resolves
    has a higher position, and the top role is itself one of those roles,
    or the implicit role of position -1 when none of the ids resolves. *)
Theorem top_role_is_maximum guild_id role_ids top :
  _get_top_role db guild_id role_ids = inr top →
  (∀ role_id r, role_id ∈ role_ids →
                get_role db guild_id role_id = inr (Some r) →
                position_of r ≤ position_of top)
  ∧ ((top = mkRole (Some (-1))
      ∧ ∀ role_id r, role_id ∈ role_ids →
                     get_role db guild_id role_id ≠ inr (Some r))
     ∨ ∃ role_id, role_id ∈ role_ids
                  ∧ get_role db guild_id role_id = inr (Some top)).
Proof.
  intros Htop. split.
  - intros role_id r. by apply top_role_upper.
  - by apply top_role_cases.
Qed.

(** X21.  The position of the top role depends on the set of role ids
    only: two role lists with the same elements, in any order and with any
    repetition, give top roles of the same position. *)
Theorem top_role_position_of_set guild_id role_ids1 role_ids2 top1 top2 :
  (∀ role_id, role_id ∈ role_ids1 ↔ role_id ∈ role_ids2) →
  _get_top_role db guild_id role_ids1 = inr top1 →
  _get_top_role db guild_id role_ids2 = inr top2 →
  position_of top1 = position_of top2.
Proof.
  intros Hsame Htop1 Htop2.
  destruct (top_role_cases _ _ _ Htop1) as [[-> Hnone1]|(id1 & Hin1 & Hid1)];
    destruct (top_role_cases _ _ _ Htop2) as [[-> Hnone2]|(id2 & Hin2 & Hid2)].
  - done.
  - destruct (Hnone1 id2 top2); [by apply Hsame|done].
  - destruct (Hnone2 id1 top1); [by apply Hsame|done].
  - apply Z.le_antisymm.
    + apply (top_role_upper _ _ _ id1 _ Htop2); [by apply Hsame|done].
    + apply (top_role_upper _ _ _ id2 _ Htop1); [by apply Hsame|done].
Qed.

End TopRoleFacts.

Section ModerationFacts.

Import Database StoatPermissions.RoleHierarchy.

Variable db : DatabaseManager.

(** [can_moderate_member] once the three documents have been found. *)
Lemma can_moderate_member_found guild_id a b ma mb g :
  a ≠ b →
  get_member db guild_id a = inr (Some ma) →
  get_member db guild_id b = inr (Some mb) →
  get_guild db guild_id = inr (Some g) →
  can_moderate_member db a b guild_id =
    if decide (Some a = owner_id g) then (true, None)
    else if decide (Some b = owner_id g) then
      (false, Some "Cannot moderate server owner")
    else if negb (has_moderation_permission ma) then
      (false, Some "You don't have permission to moderate")
    else
      match _get_top_role db guild_id (roles ma),
            _get_top_role db guild_id (roles mb) with
      | inr ra, inr rb =>
        if decide (position_of ra ≤ position_of rb) then
          (false, Some "Target has equal or higher role")
        else (true, None)
      | _, _ => (false, Some "Permission check failed")
      end.
Proof.
  intros Hne Hma Hmb Hg.
  unfold can_moderate_member, can_moderate_member_body, _check_permission.
  rewrite decide_False by done. rewrite Hma, Hmb, Hg. simpl.
  case_decide; [done|]. case_decide; [done|].
  unfold has_moderation_permission.
  destruct (negb _); [done|].
  destruct (_get_top_role db guild_id (roles ma)) as [e|ra]; simpl; [done|].
  destruct (_get_top_role db guild_id (roles mb)) as [e|rb]; simpl; [done|].
  by case_decide.
Qed.

(** An allow needs the three documents. *)
Lemma can_moderate_member_allowed guild_id a b :
  can_moderate_member db a b guild_id = (true, None) →
  a ≠ b ∧ ∃ ma mb g,
    get_member db guild_id a = inr (Some ma)
    ∧ get_member db guild_id b = inr (Some mb)
    ∧ get_guild db guild_id = inr (Some g).
Proof.
  unfold can_moderate_member, can_moderate_member_body.
  case_decide; [done|].
  destruct (get_member db guild_id a) as [e|[ma|]]; simpl; try done;
    destruct (get_member db guild_id b) as [e|[mb|]]; simpl; try done;
    destruct (get_guild db guild_id) as [e|[g|]]; simpl; try done.
  intros _. split; [done|]. by exists ma, mb, g.
Qed.

(** X22.  [can_moderate_member] allows in exactly two situations: the
    moderator is the owner of the guild; or the target is not the owner,
    the moderator is an admin or has [kick_members] or [ban_members], and
    the moderator's top role is strictly above the target's.  In both the
    two members are different and both have a member document. *)
Theorem can_moderate_member_allows_iff guild_id a b :
  can_moderate_member db a b guild_id = (true, None)
  ↔ a ≠ b ∧ ∃ ma mb g,
      get_member db guild_id a = inr (Some ma)
      ∧ get_member db guild_id b = inr (Some mb)
      ∧ get_guild db guild_id = inr (Some g)
      ∧ (owner_id g = Some a
         ∨ (owner_id g ≠ Some b
            ∧ has_moderation_permission ma = true
            ∧ ∃ ra rb,
                _get_top_role db guild_id (roles ma) = inr ra
                ∧ _get_top_role db guild_id (roles mb) = inr rb
                ∧ position_of rb < position_of ra)).
Proof.
  split.
  - intros Hallow.
    destruct (can_moderate_member_allowed _ _ _ Hallow)
      as (Hne & ma & mb & g & Hma & Hmb & Hg).
    split; [done|]. exists ma, mb, g. repeat (split; [done|]).
    rewrite (can_moderate_member_found _ _ _ ma mb g) in Hallow by done.
    case_decide as Howner; [by left|]. right.
    case_decide as Htarget; [done|].
    destruct (has_moderation_permission ma); [|done]. simpl in Hallow.
    destruct (_get_top_role db guild_id (roles ma)) as [e|ra]; [done|].
    destruct (_get_top_role db guild_id (roles mb)) as [e|rb]; [done|].
    case_decide; [done|].
    split; [congruence|]. split; [done|]. exists ra, rb.
    repeat (split; [done|]). lia.
  - intros (Hne & ma & mb & g & Hma & Hmb & Hg & Hcases).
    rewrite (can_moderate_member_found _ _ _ ma mb g) by done.
    destruct Hcases as [Howner|(Htarget & Hperm & ra & rb & Hra & Hrb & Hlt)].
    + by rewrite decide_True.
    + case_decide; [done|].
      rewrite decide_False by congruence.
      rewrite Hperm, Hra, Hrb. simpl. by rewrite decide_False by lia.
Qed.

(** X23.  No two members can moderate each other: if [a] is allowed to
    act on [b], then [b] is denied against [a]. *)
Theorem no_mutual_moderation guild_id a b :
  can_moderate_member db a b guild_id = (true, None) →
  (can_moderate_member db b a guild_id).1 = false.
Proof.
  intros Hallow.
  destruct (can_moderate_member_allowed _ _ _ Hallow)
    as (Hne & ma & mb & g & Hma & Hmb & Hg).
  rewrite (can_moderate_member_found _ _ _ ma mb g) in Hallow by done.
  rewrite (can_moderate_member_found _ _ _ mb ma g) by done.
  revert Hallow.
  destruct (decide (Some a = owner_id g)) as [Ha|Ha];
    destruct (decide (Some b = owner_id g)) as [Hb|Hb]; simpl; try done.
  - intros _. exfalso. congruence.
  - destruct (has_moderation_permission ma); simpl; [|done].
    destruct (has_moderation_permission mb); simpl; [|done].
    destruct (_get_top_role db guild_id (roles ma)) as [e|ra]; [done|].
    destruct (_get_top_role db guild_id (roles mb)) as [e|rb]; [done|].
    destruct (decide (position_of ra ≤ position_of rb)); [done|].
    intros _. by rewrite decide_True by lia.
Qed.

(** X24.  Nobody can moderate the owner of a guild: whoever the
    moderator is, with whatever flags, permissions and roles, a target who
    owns the guild is refused. *)
Theorem owner_is_never_moderated guild_id a owner g :
  get_guild db guild_id = inr (Some g) →
  owner_id g = Some owner →
  (can_moderate_member db a owner guild_id).1 = false.
Proof.
  intros Hg Howner. unfold can_moderate_member, can_moderate_member_body.
  destruct (decide (a = owner)) as [->|Hne]; [done|].
  destruct (get_member db guild_id a) as [e|[ma|]]; simpl; try done;
    destruct (get_member db guild_id owner) as [e|[mo|]]; simpl; try done;
    rewrite Hg; simpl; try done.
  rewrite Howner. rewrite decide_False by congruence. by rewrite decide_True.
Qed.

(** X25.  A denial always carries a reason and an allow never does, in
    [RoleHierarchy.can_moderate_member] as in
    [PermissionChecker.can_moderate]. *)
Theorem denial_has_reason guild_id a b :
  ((can_moderate_member db a b guild_id).1 = true
   ↔ (can_moderate_member db a b guild_id).2 = None)
  ∧ ((Permissions.PermissionChecker.can_moderate db guild_id a b).1 = true
     ↔ (Permissions.PermissionChecker.can_moderate db guild_id a b).2 = None).
Proof.
  split.
  - unfold can_moderate_member, can_moderate_member_body, _check_permission.
    destruct (decide (a = b)); [done|].
    destruct (get_member db guild_id a) as [e|[ma|]]; simpl; try done;
      destruct (get_member db guild_id b) as [e|[mb|]]; simpl; try done;
      destruct (get_guild db guild_id) as [e|[g|]]; simpl; try done.
    destruct (decide (Some a = owner_id g)); [done|].
    destruct (decide (Some b = owner_id g)); [done|].
    destruct (negb _); [done|].
    destruct (_get_top_role db guild_id (roles ma)) as [e|ra]; simpl; [done|].
    destruct (_get_top_role db guild_id (roles mb)) as [e|rb]; simpl; [done|].
    by destruct (decide (position_of ra ≤ position_of rb)).
  - unfold Permissions.PermissionChecker.can_moderate,
      Permissions.PermissionChecker.can_moderate_body.
    destruct (decide (a = b)); [done|].
    destruct (get_member db guild_id a) as [e|[ma|]]; simpl; try done.
    destruct (negb _); [done|].
    destruct (get_guild db guild_id) as [e|[g|]]; simpl; try done.
    by destruct (decide (owner_id g = Some b)).
Qed.

End ModerationFacts.

Section RoleManagementFacts.

Import Database StoatPermissions.RoleHierarchy.

Variable db : DatabaseManager.

(** X26.  [can_manage_role] allows in exactly two situations: the
    executor is the owner of the guild; or the executor is an admin whose
    top role is strictly above the target role.  In both the executor has a member
    document and the target role exists; a moderator's permissions play no
    part. *)
Theorem can_manage_role_iff guild_id executor_id target_role_id :
  can_manage_role db executor_id target_role_id guild_id = true
  ↔ ∃ executor target_role g,
      get_member db guild_id executor_id = inr (Some executor)
      ∧ get_role db guild_id target_role_id = inr (Some target_role)
      ∧ get_guild db guild_id = inr (Some g)
      ∧ (owner_id g = Some executor_id
         ∨ (is_admin executor = true
            ∧ ∃ top, _get_top_role db guild_id (roles executor) = inr top
                     ∧ position_of target_role < position_of top)).
Proof.
  unfold can_manage_role, can_manage_role_body. split.
  - destruct (get_member db guild_id executor_id) as [e|[executor|]];
      simpl; try done;
      destruct (get_role db guild_id target_role_id) as [e|[target_role|]];
      simpl; try done.
    destruct (get_guild db guild_id) as [e|[g|]]; simpl; try done.
    intros Hallow. exists executor, target_role, g.
    repeat (split; [done|]). revert Hallow.
    destruct (decide (Some executor_id = owner_id g)) as [Howner|Howner];
      [by left|].
    destruct (is_admin executor); [|done]. intros Hallow.
    right. split; [done|].
    destruct (_get_top_role db guild_id (roles executor)) as [e|top];
      simpl in Hallow; [done|].
    exists top. split; [done|]. by apply bool_decide_eq_true in Hallow.
  - intros (executor & target_role & g & -> & -> & -> & Hcases). simpl.
    destruct Hcases as [Howner|(Hadmin & top & Htop & Hlt)].
    + by rewrite decide_True.
    + destruct (decide (Some executor_id = owner_id g)); [done|].
      rewrite Hadmin, Htop. simpl. by apply bool_decide_eq_true.
Qed.

End RoleManagementFacts.

(** * The permission levels of [utils/permissions.py] *)

Section LevelFacts.

Import Database Permissions.PermissionChecker.

Variable lower : string → string.
Variable db : DatabaseManager.

Lemma level_of_owner guild_id user_id g :
  get_guild db guild_id = inr (Some g) →
  owner_id g = Some user_id →
  get_permission_level db guild_id user_id = 3.
Proof.
  intros Hg Howner. unfold get_permission_level, get_permission_level_body.
  rewrite Hg. simpl. by rewrite bool_decide_true.
Qed.

Lemma level_of_other guild_id user_id g :
  get_guild db guild_id = inr (Some g) →
  owner_id g ≠ Some user_id →
  get_permission_level db guild_id user_id ≤ 2.
Proof.
  intros Hg Howner. unfold get_permission_level, get_permission_level_body.
  rewrite Hg. simpl. rewrite bool_decide_false by done.
  destruct (get_member db guild_id user_id) as [e|[m|]]; simpl; try lia.
  destruct (is_admin m); simpl; [lia|]. destruct (is_mod m); simpl; lia.
Qed.

(** X27.  When the guild lookup returns (a guild or none), the level agrees
    with the module-level checks: level 3 is the guild owner and nobody
    else; [is_admin] gives at least level 2 and [is_mod] at least level 1;
    level 2 is an admin and level 1 a moderator who is not an admin. *)
Theorem levels_match_checks guild_id user_id guild :
  get_guild db guild_id = inr guild →
  (Permissions.is_guild_owner db guild_id user_id = true
   ↔ get_permission_level db guild_id user_id = 3)
  ∧ (Permissions.is_admin db guild_id user_id = true
     → 2 ≤ get_permission_level db guild_id user_id)
  ∧ (Permissions.is_mod db guild_id user_id = true
     → 1 ≤ get_permission_level db guild_id user_id)
  ∧ (get_permission_level db guild_id user_id = 2
     → Permissions.is_admin db guild_id user_id = true)
  ∧ (get_permission_level db guild_id user_id = 1
     → Permissions.is_mod db guild_id user_id = true
       ∧ Permissions.is_admin db guild_id user_id = false).
Proof.
  intros Hguild.
  unfold get_permission_level, get_permission_level_body,
    Permissions.is_guild_owner, Permissions.is_admin, Permissions.is_mod.
  rewrite Hguild. simpl. destruct guild as [g|];
    try destruct (bool_decide (owner_id g = Some user_id)); simpl;
    destruct (get_member db guild_id user_id) as [e'|[m|]]; simpl;
    try destruct (is_admin m); try destruct (is_mod m); simpl;
    repeat split; intros; try done; try lia.
Qed.

(** When the guild lookup fails, everybody is at level 0, the owner and
    the admins included. *)
Lemma level_when_guild_lookup_fails guild_id user_id e :
  get_guild db guild_id = inl e →
  get_permission_level db guild_id user_id = 0.
Proof.
  intros Hguild. unfold get_permission_level, get_permission_level_body.
  by rewrite Hguild.
Qed.

(** [check_hierarchy] is a strict order: nobody outranks themselves, two
    users never outrank each other, and outranking is transitive. *)
Lemma check_hierarchy_strict_order guild_id a b c :
  check_hierarchy db guild_id a a = false
  ∧ (check_hierarchy db guild_id a b = true →
     check_hierarchy db guild_id b a = false)
  ∧ (check_hierarchy db guild_id a b = true →
     check_hierarchy db guild_id b c = true →
     check_hierarchy db guild_id a c = true).
Proof.
  unfold check_hierarchy. simpl. split; [|split].
  - apply bool_decide_eq_false. lia.
  - rewrite bool_decide_eq_true, bool_decide_eq_false. lia.
  - rewrite !bool_decide_eq_true. lia.
Qed.

(** X28.  The owner of a guild outranks every other user, member or not, and
    is outranked by nobody. *)
Theorem owner_outranks_everyone guild_id owner user_id g :
  get_guild db guild_id = inr (Some g) →
  owner_id g = Some owner →
  user_id ≠ owner →
  check_hierarchy db guild_id owner user_id = true
  ∧ check_hierarchy db guild_id user_id owner = false.
Proof.
  intros Hg Howner Hne. unfold check_hierarchy. simpl.
  rewrite (level_of_owner guild_id owner g) by done.
  assert (get_permission_level db guild_id user_id ≤ 2)
    by (apply (level_of_other guild_id user_id g); [done|congruence]).
  split.
  - apply bool_decide_eq_true. lia.
  - apply bool_decide_eq_false. lia.
Qed.

Lemma permissions_map_at_most_2 name required :
  permissions_map !! name = Some required → 0 ≤ required ≤ 2.
Proof.
  assert (Hall : map_Forall (λ _ v, 0 ≤ v ≤ 2) permissions_map).
  { unfold permissions_map.
    repeat (apply map_Forall_insert_2; [lia|]). apply map_Forall_empty. }
  apply Hall.
Qed.

(** X29.  Admins and the owner have every permission: from level 2 on,
    [has_permission] is true for every permission name, in the table or
    not; no entry of the table asks for more than level 2. *)
Theorem level_2_has_every_permission guild_id user_id permission :
  2 ≤ get_permission_level db guild_id user_id →
  has_permission lower db guild_id user_id permission = true.
Proof.
  intros Hlevel. unfold has_permission. simpl.
  apply bool_decide_eq_true.
  destruct (permissions_map !! lower permission) as [required|] eqn:Hreq;
    simpl; [|lia].
  apply permissions_map_at_most_2 in Hreq. lia.
Qed.

(** A user of a higher level has every permission a user of a lower level
    has. *)
Lemma has_permission_monotone guild_id user_id user_id' permission :
  get_permission_level db guild_id user_id
    ≤ get_permission_level db guild_id user_id' →
  has_permission lower db guild_id user_id permission = true →
  has_permission lower db guild_id user_id' permission = true.
Proof.
  intros Hle. unfold has_permission. simpl.
  rewrite !bool_decide_eq_true. lia.
Qed.

(** X30.  [PermissionChecker.can_moderate] allows exactly when the two users
    differ, the moderator has a member document flagged moderator or
    admin, and the target does not own the guild (a guild that is not
    found has no owner).  Neither roles nor the target's own flags are
    compared: a moderator may act on an admin. *)
Theorem can_moderate_allows_iff guild_id a b :
  can_moderate db guild_id a b = (true, None)
  ↔ a ≠ b
    ∧ ∃ m, get_member db guild_id a = inr (Some m)
           ∧ (is_mod m || is_admin m) = true
           ∧ (get_guild db guild_id = inr None
              ∨ ∃ g, get_guild db guild_id = inr (Some g)
                     ∧ owner_id g ≠ Some b).
Proof.
  unfold can_moderate, can_moderate_body. split.
  - destruct (decide (a = b)); [done|].
    destruct (get_member db guild_id a) as [e|[m|]]; simpl; try done.
    destruct (is_mod m || is_admin m) eqn:Hflags; simpl; [|done].
    destruct (get_guild db guild_id) as [e|[g|]]; simpl; try done.
    + destruct (decide (owner_id g = Some b)); [done|]. intros _.
      split; [done|]. exists m. repeat (split; [done|]). right. by exists g.
    + intros _. split; [done|]. exists m. repeat (split; [done|]). by left.
  - intros (Hne & m & -> & Hflags & Hguild). rewrite decide_False by done.
    simpl. rewrite Hflags. simpl.
    destruct Hguild as [->|(g & -> & Howner)]; simpl; [done|].
    by rewrite decide_False.
Qed.

End LevelFacts.

(** * The statements above at concrete inputs *)

(** A decidable closed fact, by evaluation. *)
Ltac by_evaluation := apply (bool_decide_unpack _); vm_compute; exact I.

Lemma operation_leaves_other_features_witness :
  operation_feature (SetPhase "economy" Rollout.DEPRECATED) ≠ "moderation"
  ∧ Rollout.can_use_feature poly_hash
      (apply_operation Rollout.init (SetPhase "economy" Rollout.DEPRECATED))
      "moderation" "server_1"
    = Rollout.can_use_feature poly_hash Rollout.init "moderation" "server_1".
Proof.
  assert (H : operation_feature (SetPhase "economy" Rollout.DEPRECATED)
              ≠ "moderation") by discriminate.
  split; [exact H|].
  exact (operation_leaves_other_features poly_hash Rollout.init
           (SetPhase "economy" Rollout.DEPRECATED) "moderation" "server_1" H).
Defined.

Lemma blacklist_add_then_remove_witness :
  ("server_1" ∉ default ∅ (Rollout._blacklist Rollout.init !! "economy"))
  ∧ Rollout.can_use_feature poly_hash
      (Rollout.remove_blacklist
         (Rollout.add_blacklist Rollout.init "economy" "server_1")
         "economy" "server_1")
      "economy" "server_1"
    = Rollout.can_use_feature poly_hash Rollout.init "economy" "server_1".
Proof.
  assert (H : "server_1" ∉ default ∅
                (Rollout._blacklist Rollout.init !! "economy"))
    by (simpl; rewrite lookup_empty; apply not_elem_of_empty).
  split; [exact H|].
  exact (blacklist_add_then_remove poly_hash Rollout.init "economy" "server_1"
           "economy" "server_1" H).
Defined.

Lemma beta_whitelist_decides_witness :
  Rollout._phase_config Rollout.init !! "tickets" = Some Rollout.BETA
  ∧ Rollout.can_use_feature poly_hash
      (Rollout.add_whitelist Rollout.init "tickets" "server_1")
      "tickets" "server_1" = true
  ∧ Rollout.can_use_feature poly_hash
      (Rollout.remove_whitelist Rollout.init "tickets" "server_1")
      "tickets" "server_1" = false.
Proof.
  assert (H1 : Rollout._phase_config Rollout.init !! "tickets"
               = Some Rollout.BETA) by (vm_compute; reflexivity).
  assert (H2 : "server_1" ∉ default ∅
                 (Rollout._blacklist Rollout.init !! "tickets"))
    by (simpl; rewrite lookup_empty; apply not_elem_of_empty).
  split; [exact H1|].
  exact (beta_whitelist_decides poly_hash Rollout.init "tickets" "server_1"
           H1 H2).
Defined.

Lemma whitelist_ignored_outside_beta_witness :
  Rollout._phase_config Rollout.init !! "economy" ≠ Some Rollout.BETA
  ∧ Rollout.can_use_feature poly_hash
      (Rollout.add_whitelist Rollout.init "economy" "server_1")
      "economy" "server_1"
    = Rollout.can_use_feature poly_hash Rollout.init "economy" "server_1"
  ∧ Rollout.can_use_feature poly_hash
      (Rollout.remove_whitelist Rollout.init "economy" "server_1")
      "economy" "server_1"
    = Rollout.can_use_feature poly_hash Rollout.init "economy" "server_1".
Proof.
  assert (H : Rollout._phase_config Rollout.init !! "economy"
              ≠ Some Rollout.BETA) by (vm_compute; discriminate).
  split; [exact H|].
  exact (whitelist_ignored_outside_beta poly_hash Rollout.init "economy"
           "server_1" "economy" "server_1" H).
Defined.

Lemma percentage_ignored_outside_gradual_witness :
  Rollout._phase_config Rollout.init !! "tickets" ≠ Some Rollout.GRADUAL
  ∧ Rollout.can_use_feature poly_hash
      (Rollout.set_rollout_percentage Rollout.init "tickets" 100)
      "tickets" "server_1"
    = Rollout.can_use_feature poly_hash Rollout.init "tickets" "server_1".
Proof.
  assert (H : Rollout._phase_config Rollout.init !! "tickets"
              ≠ Some Rollout.GRADUAL) by (vm_compute; discriminate).
  split; [exact H|].
  exact (percentage_ignored_outside_gradual poly_hash Rollout.init "tickets"
           100 "tickets" "server_1" H).
Defined.

Lemma reported_percentage_extremes_witness :
  Rollout.can_use_feature poly_hash Rollout.init "moderation" "server_1" = true
  ∧ Rollout.can_use_feature poly_hash Rollout.init "ai_chat" "server_1" = false.
Proof.
  split.
  - refine (proj1 (reported_percentage_extremes poly_hash Rollout.init
                     "moderation" "server_1") _ _).
    + vm_compute; reflexivity.
    + simpl. rewrite lookup_empty. apply not_elem_of_empty.
  - refine (proj2 (reported_percentage_extremes poly_hash Rollout.init
                     "ai_chat" "server_1") _ _).
    + vm_compute; reflexivity.
    + vm_compute; discriminate.
Defined.

Lemma config_all_valid_is_valid :
  Forall (λ item, valid_phase_string item.2) (Rollout.phases config_all_valid).
Proof.
  unfold config_all_valid. simpl.
  repeat apply Forall_cons_2; try apply Forall_nil_2.
  - by exists Rollout.STABLE.
  - by exists Rollout.GRADUAL.
  - by exists Rollout.BETA.
Qed.

Lemma import_config_valid_witness :
  Forall (λ item, valid_phase_string item.2) (Rollout.phases config_all_valid)
  ∧ Rollout._phase_config (Rollout.import_config Rollout.init config_all_valid)
      !! "economy" = Some Rollout.BETA
  ∧ Rollout._rollout_percentages
      (Rollout.import_config Rollout.init config_all_valid) !! "tickets"
    = Some 150.
Proof.
  split; [exact config_all_valid_is_valid|].
  rewrite (import_config_valid Rollout.init config_all_valid
             config_all_valid_is_valid).
  split; vm_compute; reflexivity.
Defined.

Lemma import_config_leaves_unmentioned_witness :
  Rollout.can_use_feature poly_hash
    (Rollout.import_config Rollout.init config_one_invalid)
    "verification" "server_1"
  = Rollout.can_use_feature poly_hash Rollout.init "verification" "server_1".
Proof.
  refine (proj2 (proj2 (proj2 (proj2
    (import_config_leaves_unmentioned poly_hash Rollout.init config_one_invalid
       "verification" "server_1" _ _ _ _))))); by_evaluation.
Defined.

Lemma is_enabled_without_server_witness :
  FeatureFlags.is_enabled poly_hash FeatureFlags.DEFAULT_FLAGS "moderation" None
    = true
  ↔ ∃ flag, FeatureFlags.DEFAULT_FLAGS !! "moderation" = Some flag
            ∧ FeatureFlags.status flag = Some FeatureFlags.ENABLED.
Proof.
  exact (is_enabled_without_server poly_hash FeatureFlags.DEFAULT_FLAGS
           "moderation" None (or_introl eq_refl)).
Defined.

Lemma set_rollout_extremes_witness :
  FeatureFlags.is_enabled poly_hash
    (FeatureFlags.set_rollout FeatureFlags.DEFAULT_FLAGS "ai_chat" (-5))
    "ai_chat" (Some "server_1") = false
  ∧ FeatureFlags.is_enabled poly_hash
      (FeatureFlags.set_rollout FeatureFlags.DEFAULT_FLAGS "ai_chat" 250)
      "ai_chat" (Some "server_1") = true.
Proof.
  assert (Hflag : FeatureFlags.DEFAULT_FLAGS !! "ai_chat"
            = Some (FeatureFlags.mkFlag (Some FeatureFlags.INTERNAL) (Some 10)
                      (Some "AI chat integration (testing)")))
    by (vm_compute; reflexivity).
  split.
  - refine (proj1 (set_rollout_extremes poly_hash FeatureFlags.DEFAULT_FLAGS
                     "ai_chat" _ "server_1" (-5) Hflag _ _) _).
    + left. reflexivity.
    + discriminate.
    + lia.
  - refine (proj2 (set_rollout_extremes poly_hash FeatureFlags.DEFAULT_FLAGS
                     "ai_chat" _ "server_1" 250 Hflag _ _) _).
    + left. reflexivity.
    + discriminate.
    + lia.
Defined.

Lemma non_member_permissions_witness :
  StoatPermissions.PermissionChecker.check_any_permission
    db_owner_without_record "g1" "owner_1" ["kick_members"; "ban_members"]
    = false
  ∧ (StoatPermissions.PermissionChecker.check_all_permissions
       db_owner_without_record "g1" "owner_1" [] = true ↔ @nil string = [])
  ∧ StoatPermissions.PermissionChecker.get_user_permissions
      db_owner_without_record "g1" "owner_1" = [].
Proof.
  assert (Hnone : ∀ m, Database.get_member db_owner_without_record "g1" "owner_1"
                       ≠ inr (Some m)) by (intros m; vm_compute; discriminate).
  destruct (non_member_permissions db_owner_without_record "g1" "owner_1"
              ["kick_members"; "ban_members"] Hnone) as (Hany & _ & Hlist).
  destruct (non_member_permissions db_owner_without_record "g1" "owner_1"
              [] Hnone) as (_ & Hall & _).
  split; [exact Hany|]. split; [exact Hall|exact Hlist].
Defined.

Lemma admin_permissions_witness :
  Database.get_member db_dangling_role "g1" "admin_1"
    = inr (Some (Database.mkMember ["role_gone"; "role_mod"] true false []))
  ∧ StoatPermissions.PermissionChecker.check_permission db_dangling_role
      "g1" "admin_1" "kick_members" = true
  ∧ "KICK_MEMBERS" ∈ StoatPermissions.PermissionChecker.get_user_permissions
                       db_dangling_role "g1" "admin_1"
  ∧ "kick_members" ∉ StoatPermissions.PermissionChecker.get_user_permissions
                       db_dangling_role "g1" "admin_1".
Proof.
  assert (Hm : Database.get_member db_dangling_role "g1" "admin_1"
            = inr (Some (Database.mkMember ["role_gone"; "role_mod"]
                           true false [])))
    by (vm_compute; reflexivity).
  destruct (admin_permissions db_dangling_role "g1" "admin_1" _ Hm eq_refl)
    as (Hcheck & _ & _ & Hnames).
  split; [exact Hm|]. split; [apply Hcheck|].
  apply (Hnames ("KICK_MEMBERS", "kick_members")). by_evaluation.
Defined.

Lemma listed_permissions_are_granted_witness :
  "kick_members" ∈ StoatPermissions.PermissionChecker.get_user_permissions
                     db_small_guild "g1" "member_2"
  ∧ StoatPermissions.PermissionChecker.check_permission db_small_guild
      "g1" "member_2" "kick_members" = true.
Proof.
  assert (Hin : "kick_members" ∈
            StoatPermissions.PermissionChecker.get_user_permissions
              db_small_guild "g1" "member_2") by by_evaluation.
  split; [exact Hin|].
  exact (proj1 (listed_permissions_are_granted db_small_guild "g1" "member_2"
                  "kick_members") Hin).
Defined.

Lemma top_role_is_maximum_witness :
  StoatPermissions.RoleHierarchy._get_top_role db_dangling_role "g1"
    ["role_gone"; "role_low"; "role_mod"] = inr (Database.mkRole (Some 5))
  ∧ ∀ role_id r,
      role_id ∈ ["role_gone"; "role_low"; "role_mod"] →
      Database.get_role db_dangling_role "g1" role_id = inr (Some r) →
      StoatPermissions.RoleHierarchy.position_of r ≤ 5.
Proof.
  assert (Htop : StoatPermissions.RoleHierarchy._get_top_role db_dangling_role
            "g1" ["role_gone"; "role_low"; "role_mod"]
            = inr (Database.mkRole (Some 5))) by (vm_compute; reflexivity).
  split; [exact Htop|].
  exact (proj1 (top_role_is_maximum db_dangling_role "g1" _ _ Htop)).
Defined.

Lemma top_role_position_of_set_witness :
  StoatPermissions.RoleHierarchy._get_top_role db_dangling_role "g1"
    ["role_mod"; "role_low"] = inr (Database.mkRole (Some 5))
  ∧ StoatPermissions.RoleHierarchy._get_top_role db_dangling_role "g1"
      ["role_low"; "role_mod"; "role_low"] = inr (Database.mkRole (Some 5))
  ∧ StoatPermissions.RoleHierarchy.position_of (Database.mkRole (Some 5))
    = StoatPermissions.RoleHierarchy.position_of (Database.mkRole (Some 5)).
Proof.
  assert (H1 : StoatPermissions.RoleHierarchy._get_top_role db_dangling_role
            "g1" ["role_mod"; "role_low"] = inr (Database.mkRole (Some 5)))
    by (vm_compute; reflexivity).
  assert (H2 : StoatPermissions.RoleHierarchy._get_top_role db_dangling_role
            "g1" ["role_low"; "role_mod"; "role_low"]
            = inr (Database.mkRole (Some 5)))
    by (vm_compute; reflexivity).
  split; [exact H1|]. split; [exact H2|].
  refine (top_role_position_of_set db_dangling_role "g1"
            ["role_mod"; "role_low"] ["role_low"; "role_mod"; "role_low"]
            (Database.mkRole (Some 5)) (Database.mkRole (Some 5)) _ H1 H2).
  intros role_id. rewrite !elem_of_cons. tauto.
Defined.

Lemma no_mutual_moderation_witness :
  StoatPermissions.RoleHierarchy.can_moderate_member db_dangling_role
    "mod_1" "member_2" "g1" = (true, None)
  ∧ (StoatPermissions.RoleHierarchy.can_moderate_member db_dangling_role
       "member_2" "mod_1" "g1").1 = false.
Proof.
  assert (H : StoatPermissions.RoleHierarchy.can_moderate_member
                db_dangling_role "mod_1" "member_2" "g1" = (true, None))
    by (vm_compute; reflexivity).
  split; [exact H|].
  exact (no_mutual_moderation db_dangling_role "g1" "mod_1" "member_2" H).
Defined.

Lemma owner_is_never_moderated_witness :
  (StoatPermissions.RoleHierarchy.can_moderate_member db_small_guild
     "member_2" "owner_1" "g1").1 = false.
Proof.
  refine (owner_is_never_moderated db_small_guild "g1" "member_2" "owner_1"
            (Database.mkGuild (Some "owner_1")) _ _).
  - vm_compute; reflexivity.
  - reflexivity.
Defined.

Lemma levels_match_checks_witness :
  Permissions.is_guild_owner db_small_guild "g1" "owner_1" = true
  ↔ Permissions.PermissionChecker.get_permission_level db_small_guild
      "g1" "owner_1" = 3.
Proof.
  refine (proj1 (levels_match_checks db_small_guild "g1" "owner_1"
                   (Some (Database.mkGuild (Some "owner_1"))) _)).
  vm_compute; reflexivity.
Defined.

Lemma owner_outranks_everyone_witness :
  Permissions.PermissionChecker.check_hierarchy db_dangling_role
    "g1" "owner_1" "admin_1" = true
  ∧ Permissions.PermissionChecker.check_hierarchy db_dangling_role
      "g1" "admin_1" "owner_1" = false.
Proof.
  refine (owner_outranks_everyone db_dangling_role "g1" "owner_1" "admin_1"
            (Database.mkGuild (Some "owner_1")) _ _ _).
  - vm_compute; reflexivity.
  - reflexivity.
  - discriminate.
Defined.

Lemma level_2_has_every_permission_witness :
  2 ≤ Permissions.PermissionChecker.get_permission_level db_dangling_role
        "g1" "admin_1"
  ∧ Permissions.PermissionChecker.has_permission str_lower db_dangling_role
      "g1" "admin_1" "Ban_Members" = true.
Proof.
  assert (H : 2 ≤ Permissions.PermissionChecker.get_permission_level
                    db_dangling_role "g1" "admin_1")
    by (vm_compute; discriminate).
  split; [exact H|].
  exact (level_2_has_every_permission str_lower db_dangling_role "g1"
           "admin_1" "Ban_Members" H).
Defined.
